(** * Wallet session manager: storage, network switch and the Web3Wallet component

    A shallow embedding of
    - [src/libs/storage.js]  (saveSession, loadSession, clearSession),
    - [src/libs/network.js]  (CHAIN_PARAMS, switchOrAddChain, getChainName),
    - the [Web3Wallet] React component (connect, refreshBalance, the provider
      event handlers, the auto-reconnect and status auto-clear effects,
      handleChangeNetwork, sendEth).

    JavaScript code that throws, awaits the provider and mutates
    [localStorage] and React state is written in a small state-and-exception
    monad [JS] over a [World]; numbers are IEEE-754 binary64 values
    ([spec_float] at precision 53, [emax] 1024). *)

From Stdlib Require Import ZArith NArith QArith Ascii String List SpecFloat.
From stdpp Require Import gmap strings.

Local Open Scope string_scope.
Local Open Scope list_scope.

(** ** JavaScript values *)

(** A thrown value, as far as the code inspects it: [err?.code] and
    [err?.message].  An absent message is the empty string, which is falsy
    like [undefined]. *)
Record js_error := JsError { code : option Z; message : string }.

(** [new Error(msg)] *)
Definition Error (msg : string) : js_error := JsError None msg.

(** Truthiness of a string: only the empty string is falsy. *)
Definition truthy (s : string) : bool :=
  match s with
  | EmptyString => false
  | String _ _ => true
  end.

(** [s || d] on strings *)
Definition or_else (s d : string) : string := if truthy s then s else d.

(** [x || d] where [x] may be [null] / [undefined] *)
Definition opt_or_else (x : option string) (d : string) : string :=
  match x with
  | Some s => or_else s d
  | None => d
  end.

(** What [balanceEth] holds: the initial string ["0"] or a Number. *)
Inductive js_value :=
  | JStr (s : string)
  | JNum (x : spec_float).

(** ** Binary64 arithmetic *)

Definition prec64 : Z := 53.
Definition emax64 : Z := 1024.

Definition mul64 : spec_float -> spec_float -> spec_float := SFmul prec64 emax64.
Definition div64 : spec_float -> spec_float -> spec_float := SFdiv prec64 emax64.

(** The Number nearest to the integer [z] (exact below 2^53). *)
Definition of_Z64 (z : Z) : spec_float := binary_normalize prec64 emax64 z 0 false.

(** A decimal string, as the exact rational [dec_num / 10^dec_scale] it
    denotes. *)
Record decimal := Decimal { dec_num : N; dec_scale : N }.

Definition pow10 (k : N) : positive :=
  match k with
  | N0 => 1%positive
  | Npos p => Pos.pow 10 p
  end.

(** [parseFloat(s)] for a decimal string [s]: the binary64 value nearest to
    the denoted rational, ties to even. *)
Definition parseFloat (s : decimal) : spec_float :=
  match dec_num s with
  | N0 => S754_zero false
  | Npos n => div64 (S754_finite false n 0) (S754_finite false (pow10 (dec_scale s)) 0)
  end.

(** The exact rational a decimal string denotes. *)
Definition decimal_value (s : decimal) : Q :=
  Qmake (Z.of_N (dec_num s)) (pow10 (dec_scale s)).

(** The Number literal [1e6]. *)
Definition num_1e6 : spec_float := of_Z64 1000000.

(** [Math.floor(x)] *)
Definition Math_floor (x : spec_float) : spec_float :=
  match x with
  | S754_finite s m e =>
      if (0 <=? e)%Z then x
      else
        let q := Z.shiftr (if s then Zneg m else Zpos m) (- e) in
        binary_normalize prec64 emax64 q 0 s
  | _ => x
  end.

(** [Number.isFinite(x)] *)
Definition Number_isFinite (x : spec_float) : bool :=
  match x with
  | S754_zero _ | S754_finite _ _ _ => true
  | _ => false
  end.

(** The exact rational value of a finite Number. *)
Definition SF2Q (x : spec_float) : option Q :=
  match x with
  | S754_zero _ => Some 0%Q
  | S754_finite s m e =>
      Some ((if s then inject_Z (Zneg m) else inject_Z (Zpos m)) * Qpower 2 e)%Q
  | _ => None
  end.

(** ** The provider (EIP-1193) *)

Module Descriptor.
Record NativeCurrency := { name : string; symbol : string; decimals : Z }.
Record t := {
  chainId : string;
  chainName : string;
  nativeCurrency : NativeCurrency;
  rpcUrls : list string;
  blockExplorerUrls : list string
}.
End Descriptor.

(** What a property lookup [CHAIN_PARAMS[key]] on the plain object can yield:
    an entry of the table, or, for a key that names a member of
    [Object.prototype], that inherited member (a function, or the prototype
    itself for ["__proto__"]). *)
Inductive chain_params_value :=
  | OwnEntry (d : Descriptor.t)
  | InheritedMember (name : string).

(** The requests the code sends, by [method] and [params].  The two last
    ones are issued through the [Web3] instance wrapped around the provider
    ([web3.eth.getBalance], [web3.eth.sendTransaction]); each stands for the
    whole library call and is answered with the call's result: the library
    may exchange further JSON-RPC messages with the provider to produce it,
    which the log does not list. *)
Inductive request :=
  | eth_requestAccounts
  | eth_accounts
  | eth_chainId
  | wallet_switchEthereumChain (chainId : string)
  | wallet_addEthereumChain (params : chain_params_value)
  | eth_getBalance (address : string)
  | eth_sendTransaction (from to value : string).

(** What a request resolves with. *)
Definition reply (r : request) : Type :=
  match r with
  | eth_requestAccounts | eth_accounts => list string
  | eth_chainId => string
  | wallet_switchEthereumChain _ | wallet_addEthereumChain _ => unit
  | eth_getBalance _ => N
  | eth_sendTransaction _ _ _ => option string
  end.

(** How a piece of code completes: normally with a value, or by throwing
    (for an awaited promise: resolved or rejected). *)
Inductive completion (A : Type) :=
  | Normal (a : A)
  | Throw (e : js_error).
Arguments Normal {A} a.
Arguments Throw {A} e.

(** A provider answers each request given the requests it has already
    received, so that a retried request may be answered differently. *)
Definition Provider := list request -> forall r : request, completion (reply r).

(** ** The page: storage, console, provider traffic and React state *)

Record AppState := {
  web3 : option Provider;
  account : string;
  chainId : string;
  balanceEth : js_value;
  to : string;
  amountEth : string;
  status : string;
  selectedChain : string
}.

(** The [useState] initial values. *)
Definition initial_state : AppState :=
  {| web3 := None; account := ""; chainId := ""; balanceEth := JStr "0";
     to := ""; amountEth := ""; status := ""; selectedChain := "0x1" |}.

Inductive storage_call :=
  | SetItem (key value : string)
  | GetItem (key : string)
  | RemoveItem (key : string).

Record World := {
  localStorage : gmap string string;
  console : list (string * js_error);
  requests : list request;
  ui : AppState
}.

(** What the code runs against and cannot change: the injected provider
    ([window.ethereum], absent when no wallet is installed), the conditions
    under which a [localStorage] call throws, and the [web3.utils] helpers
    and the [Number] conversion the component calls. *)
Record Env := {
  ethereum : option Provider;
  ls_throws : gmap string string -> storage_call -> option js_error;
  isAddress : string -> bool;
  Number : string -> spec_float;
  toWei : string -> completion string
}.

(** ** The monad *)

Definition JS (A : Type) : Type := World -> World * completion A.

Definition ret {A} (a : A) : JS A := fun w => (w, Normal a).

Definition throw {A} (e : js_error) : JS A := fun w => (w, Throw e).

Definition bind {A B} (c : JS A) (k : A -> JS B) : JS B :=
  fun w =>
    match c w with
    | (w', Normal a) => k a w'
    | (w', Throw e) => (w', Throw e)
    end.

(** [try { body } catch (err) { handler }] *)
Definition try_catch {A} (body : JS A) (handler : js_error -> JS A) : JS A :=
  fun w =>
    match body w with
    | (w', Normal a) => (w', Normal a)
    | (w', Throw e) => handler e w'
    end.

Declare Scope js_scope.
Delimit Scope js_scope with js.
Notation "x ← y ; z" := (bind y (fun x => z))
  (at level 20, y at level 100, z at level 200, only parsing) : js_scope.
Notation "x ;; z" := (bind x (fun _ => z))
  (at level 100, z at level 200, only parsing, right associativity) : js_scope.
Local Open Scope js_scope.

(** [if (cond) stmt] *)
Definition when (cond : bool) (stmt : JS unit) : JS unit :=
  if cond then stmt else ret tt.

Definition final {A} (r : World * completion A) : World := fst r.
Definition outcome {A} (r : World * completion A) : completion A := snd r.

(** *** Primitive effects *)

Definition with_localStorage (m : gmap string string) (w : World) : World :=
  {| localStorage := m; console := console w; requests := requests w; ui := ui w |}.

Definition with_ui (s : AppState) (w : World) : World :=
  {| localStorage := localStorage w; console := console w; requests := requests w; ui := s |}.

(** [console.error(msg, err)] *)
Definition console_error (msg : string) (err : js_error) : JS unit :=
  fun w =>
    ({| localStorage := localStorage w; console := console w ++ [(msg, err)];
        requests := requests w; ui := ui w |}, Normal tt).

(** [await provider.request({ method, params })]: the request is recorded and
    the promise settles as the provider decides. *)
Definition provider_request (p : Provider) (r : request) : JS (reply r) :=
  fun w =>
    ({| localStorage := localStorage w; console := console w;
        requests := requests w ++ [r]; ui := ui w |}, p (requests w) r).

(** A call of a pure helper that may throw. *)
Definition call {A} (c : completion A) : JS A := fun w => (w, c).

(** [promise.then(cb)] without a rejection handler: when the promise (or the
    callback) rejects, nothing else runs and the caller is not affected. *)
Definition then_ {A} (promise : JS A) (cb : A -> JS unit) : JS unit :=
  try_catch (bind promise cb) (fun _ => ret tt).

(** The [useState] setters. *)
Definition modify_ui (f : AppState -> AppState) : JS unit :=
  fun w => (with_ui (f (ui w)) w, Normal tt).

Definition setWeb3 (v : option Provider) : JS unit :=
  modify_ui (fun s =>
    {| web3 := v; account := account s; chainId := chainId s; balanceEth := balanceEth s;
       to := to s; amountEth := amountEth s; status := status s;
       selectedChain := selectedChain s |}).

Definition setAccount (v : string) : JS unit :=
  modify_ui (fun s =>
    {| web3 := web3 s; account := v; chainId := chainId s; balanceEth := balanceEth s;
       to := to s; amountEth := amountEth s; status := status s;
       selectedChain := selectedChain s |}).

Definition setChainId (v : string) : JS unit :=
  modify_ui (fun s =>
    {| web3 := web3 s; account := account s; chainId := v; balanceEth := balanceEth s;
       to := to s; amountEth := amountEth s; status := status s;
       selectedChain := selectedChain s |}).

Definition setBalanceEth (v : js_value) : JS unit :=
  modify_ui (fun s =>
    {| web3 := web3 s; account := account s; chainId := chainId s; balanceEth := v;
       to := to s; amountEth := amountEth s; status := status s;
       selectedChain := selectedChain s |}).

Definition setTo (v : string) : JS unit :=
  modify_ui (fun s =>
    {| web3 := web3 s; account := account s; chainId := chainId s; balanceEth := balanceEth s;
       to := v; amountEth := amountEth s; status := status s;
       selectedChain := selectedChain s |}).

Definition setAmountEth (v : string) : JS unit :=
  modify_ui (fun s =>
    {| web3 := web3 s; account := account s; chainId := chainId s; balanceEth := balanceEth s;
       to := to s; amountEth := v; status := status s;
       selectedChain := selectedChain s |}).

Definition with_status (v : string) (s : AppState) : AppState :=
  {| web3 := web3 s; account := account s; chainId := chainId s; balanceEth := balanceEth s;
     to := to s; amountEth := amountEth s; status := v;
     selectedChain := selectedChain s |}.

Definition setStatus (v : string) : JS unit := modify_ui (with_status v).

Definition setSelectedChain (v : string) : JS unit :=
  modify_ui (fun s =>
    {| web3 := web3 s; account := account s; chainId := chainId s; balanceEth := balanceEth s;
       to := to s; amountEth := amountEth s; status := status s;
       selectedChain := v |}).

(** ** src/libs/network.js *)

(** The own entries of the object, keyed by chain id in hexadecimal format. *)
Definition CHAIN_PARAMS : gmap string Descriptor.t :=
  <["0x1" :=
      {| Descriptor.chainId := "0x1";
         Descriptor.chainName := "Ethereum Mainnet";
         Descriptor.nativeCurrency :=
           {| Descriptor.name := "Ether"; Descriptor.symbol := "ETH";
              Descriptor.decimals := 18 |};
         Descriptor.rpcUrls := ["https://rpc.ankr.com/eth"];
         Descriptor.blockExplorerUrls := ["https://etherscan.io"] |}]>
  (<["0xaa36a7" :=
      {| Descriptor.chainId := "0xaa36a7";
         Descriptor.chainName := "Sepolia Testnet";
         Descriptor.nativeCurrency :=
           {| Descriptor.name := "Sepolia Ether"; Descriptor.symbol := "ETH";
              Descriptor.decimals := 18 |};
         Descriptor.rpcUrls := ["https://rpc.sepolia.org"];
         Descriptor.blockExplorerUrls := ["https://sepolia.etherscan.io"] |}]> ∅).

(** The members every plain object inherits from [Object.prototype]
    (ECMAScript, with the legacy accessors of its Annex B). *)
Definition Object_prototype_members : list string :=
  ["constructor"; "hasOwnProperty"; "isPrototypeOf"; "propertyIsEnumerable";
   "toLocaleString"; "toString"; "valueOf"; "__proto__";
   "__defineGetter__"; "__defineSetter__"; "__lookupGetter__"; "__lookupSetter__"].

Definition names_Object_prototype_member (key : string) : bool :=
  existsb (String.eqb key) Object_prototype_members.

(** [CHAIN_PARAMS[key]]: an own entry first, then the prototype chain;
    [None] is [undefined].  Every value found is truthy. *)
Definition CHAIN_PARAMS_at (key : string) : option chain_params_value :=
  match CHAIN_PARAMS !! key with
  | Some d => Some (OwnEntry d)
  | None =>
      if names_Object_prototype_member key then Some (InheritedMember key) else None
  end.

(** [err?.code === 4902] *)
Definition is_4902 (err : js_error) : bool :=
  match code err with
  | Some c => (c =? 4902)%Z
  | None => false
  end.

Definition switchOrAddChain (provider : Provider) (hexChainId : string) : JS unit :=
  try_catch
    (provider_request provider (wallet_switchEthereumChain hexChainId))
    (fun err =>
       match is_4902 err, CHAIN_PARAMS_at hexChainId with
       | true, Some params =>
           provider_request provider (wallet_addEthereumChain params);;
           provider_request provider (wallet_switchEthereumChain hexChainId)
       | _, _ => throw err
       end).

(** [CHAIN_PARAMS[hexId]?.chainName || hexId]: an inherited member has no
    [chainName], so only own entries give a name. *)
Definition getChainName (hexId : string) : string :=
  match CHAIN_PARAMS !! hexId with
  | Some params => or_else (Descriptor.chainName params) hexId
  | None => hexId
  end.

(** ** src/libs/storage.js *)

Module KEYS.
Definition account : string := "connectedAccount".
Definition chain : string := "connectedChain".
End KEYS.

Module Session.
Record t := { account : string; chainId : string }.
End Session.

Section Storage.
Variable env : Env.

Definition localStorage_setItem (key value : string) : JS unit :=
  fun w =>
    match ls_throws env (localStorage w) (SetItem key value) with
    | Some err => (w, Throw err)
    | None => (with_localStorage (<[key := value]> (localStorage w)) w, Normal tt)
    end.

Definition localStorage_getItem (key : string) : JS (option string) :=
  fun w =>
    match ls_throws env (localStorage w) (GetItem key) with
    | Some err => (w, Throw err)
    | None => (w, Normal (localStorage w !! key))
    end.

Definition localStorage_removeItem (key : string) : JS unit :=
  fun w =>
    match ls_throws env (localStorage w) (RemoveItem key) with
    | Some err => (w, Throw err)
    | None => (with_localStorage (delete key (localStorage w)) w, Normal tt)
    end.

Definition saveSession (account chainId : string) : JS unit :=
  try_catch
    (when (truthy account) (localStorage_setItem KEYS.account account);;
     when (truthy chainId) (localStorage_setItem KEYS.chain chainId))
    (fun err => console_error "Failed to save session:" err).

Definition loadSession : JS Session.t :=
  try_catch
    (a ← localStorage_getItem KEYS.account;
     c ← localStorage_getItem KEYS.chain;
     ret {| Session.account := opt_or_else a ""; Session.chainId := opt_or_else c "" |})
    (fun err =>
       console_error "Failed to load session:" err;;
       ret {| Session.account := ""; Session.chainId := "" |}).

Definition clearSession : JS unit :=
  try_catch
    (localStorage_removeItem KEYS.account;;
     localStorage_removeItem KEYS.chain)
    (fun err => console_error "Failed to clear session:" err).
End Storage.

(** ** The Web3Wallet component *)

(** [web3.utils.fromWei(wei, "ether")]: the decimal string of [wei / 10^18]. *)
Definition fromWei (wei : N) : decimal := Decimal wei 18.

(** [accounts.includes(x)] *)
Definition includes (accounts : list string) (x : string) : bool :=
  existsb (String.eqb x) accounts.

(** [Math.floor(ethValue * 1e6) / 1e6] *)
Definition round_down_6 (ethValue : spec_float) : spec_float :=
  div64 (Math_floor (mul64 ethValue num_1e6)) num_1e6.

(** Every handler is a closure created by one render of the component: it
    reads the state values [c] of that render and writes through the
    setters. *)
Section Web3Wallet.
Variable env : Env.

(** [const provider = useMemo(...)] *)
Definition provider : option Provider := ethereum env.

(** The [try] block of [connect]. *)
Definition connect_try : JS unit :=
  match provider with
  | None => throw (Error "MetaMask not found. Please install it.")
  | Some p =>
      accs ← provider_request p eth_requestAccounts;
      cid ← provider_request p eth_chainId;
      let first := opt_or_else (head accs) "" in
      setAccount first;;
      setChainId cid;;
      setSelectedChain cid;;
      setWeb3 (Some p);;
      saveSession env first cid;;
      setStatus "Connected"
  end.

Definition connect : JS unit :=
  try_catch connect_try
    (fun err => setStatus (or_else (message err) "Connect failed")).

Definition refreshBalance (c : AppState) : JS unit :=
  match web3 c with
  | None => ret tt
  | Some w3 =>
      if truthy (account c) then
        try_catch
          (wei ← provider_request w3 (eth_getBalance (account c));
           let ethValue := parseFloat (fromWei wei) in
           let rounded := round_down_6 ethValue in
           setBalanceEth (JNum rounded))
          (fun _ => setStatus "Failed to fetch balance")
      else ret tt
  end.

Definition onAccountsChanged (c : AppState) (accs : list string) : JS unit :=
  let first := opt_or_else (head accs) "" in
  setAccount first;;
  if truthy first then
    saveSession env first (chainId c);;
    setStatus "Account changed"
  else
    clearSession env;;
    setStatus "Disconnected";;
    setBalanceEth (JStr "0").

Definition onChainChanged (c : AppState) (cid : string) : JS unit :=
  setChainId cid;;
  setSelectedChain cid;;
  saveSession env (account c) cid;;
  setStatus "Network changed";;
  refreshBalance c.

(** The auto-reconnect effect, run once after the first render. *)
Definition autoReconnect : JS unit :=
  saved ← loadSession env;
  let savedAccount := Session.account saved in
  let savedChain := Session.chainId saved in
  match provider with
  | None => ret tt
  | Some p =>
      if truthy savedAccount then
        then_ (provider_request p eth_accounts)
          (fun accounts =>
             if includes accounts savedAccount then
               setAccount savedAccount;;
               setChainId (or_else savedChain "");;
               setSelectedChain (or_else savedChain "0x1");;
               setWeb3 (Some p)
             else clearSession env)
      else ret tt
  end.

Definition handleChangeNetwork (hexId : string) : JS unit :=
  match provider with
  | None => setStatus "MetaMask not found"
  | Some p =>
      try_catch
        (setStatus "Switching network…";;
         switchOrAddChain p hexId;;
         setSelectedChain hexId;;
         setStatus ("Switched to " ++ getChainName hexId))
        (fun err => setStatus (or_else (message err) "Failed to switch network"))
  end.

(** [!amountEth || !Number.isFinite(amt) || amt <= 0] *)
Definition amount_rejected (amountEth : string) : bool :=
  let amt := Number env amountEth in
  negb (truthy amountEth) || negb (Number_isFinite amt) || SFleb amt (S754_zero false).

Definition sendEth (c : AppState) : JS unit :=
  match web3 c with
  | None => setStatus "Connect wallet first"
  | Some w3 =>
      if truthy (account c) then
        try_catch
          (when (negb (isAddress env (to c))) (throw (Error "Invalid recipient address"));;
           when (amount_rejected (amountEth c)) (throw (Error "Enter a valid amount"));;
           setStatus "Sending…";;
           value ← call (toWei env (amountEth c));
           receipt ← provider_request w3 (eth_sendTransaction (account c) (to c) value);
           setStatus ("Sent! Tx: " ++ opt_or_else receipt "(pending)");;
           setTo "";;
           setAmountEth "";;
           refreshBalance c)
          (fun err => setStatus (or_else (message err) "Send failed"))
      else setStatus "Connect wallet first"
  end.
End Web3Wallet.

(** *** The status auto-clear effect

    [useEffect(() => { if (!status) return;
                       const timer = setTimeout(() => setStatus(""), 7000);
                       return () => clearTimeout(timer); }, [status])]

    Time is a count of milliseconds.  [timer] is the pending timeout, as the
    time at which it fires. *)

Record Timed := { page : AppState; timer : option Z }.

(** React runs the effect after a commit only when the dependency [status]
    differs from its value [prev] at the previous commit; it first runs the
    previous cleanup ([clearTimeout]) and then the effect body. *)
Definition status_effect (now : Z) (prev : string) (t : Timed) : Timed :=
  if String.eqb prev (status (page t)) then t
  else
    {| page := page t;
       timer := if truthy (status (page t)) then Some (now + 7000)%Z else None |}.

(** [setStatus(msg)] called at time [now], followed by the commit. *)
Definition setStatus_at (now : Z) (msg : string) (t : Timed) : Timed :=
  status_effect now (status (page t)) {| page := with_status msg (page t); timer := timer t |}.

(** The timers that are due at time [now] fire: the callback
    [() => setStatus("")] runs at the time the timeout was set for. *)
Definition advance_to (now : Z) (t : Timed) : Timed :=
  match timer t with
  | Some due =>
      if (due <=? now)%Z then setStatus_at due "" {| page := page t; timer := None |}
      else t
  | None => t
  end.

(** ** Observations used in the statements *)

(** What [loadSession] hands to its caller. *)
Definition persisted (env : Env) (w : World) : Session.t :=
  match outcome (loadSession env w) with
  | Normal s => s
  | Throw _ => {| Session.account := ""; Session.chainId := "" |}
  end.

Definition is_switch (r : request) : bool :=
  match r with
  | wallet_switchEthereumChain _ => true
  | _ => false
  end.

Definition is_add (r : request) : bool :=
  match r with
  | wallet_addEthereumChain _ => true
  | _ => false
  end.

Definition count_switch (l : list request) : nat := length (filter is_switch l).
Definition count_add (l : list request) : nat := length (filter is_add l).

(** The requests sent between the worlds [w] and [w']. *)
Definition sent_during (w w' : World) : list request :=
  drop (length (requests w)) (requests w').

(** No [localStorage] call throws. *)
Definition storage_works (env : Env) : Prop :=
  forall m c, ls_throws env m c = None.

(** The guard [!web3 || !account] does not fire. *)
Definition wallet_connected (c : AppState) : bool :=
  match web3 c with
  | Some _ => truthy (account c)
  | None => false
  end.

(** ** Sample environments *)

(** A provider described by what it answers to each kind of request. *)
Definition scripted
    (accounts : list string) (chain : string)
    (switch : list request -> completion unit) (add : completion unit)
    (balance : N) (send : completion (option string)) : Provider :=
  fun history r =>
    match r as r0 return completion (reply r0) with
    | eth_requestAccounts => Normal accounts
    | eth_accounts => Normal accounts
    | eth_chainId => Normal chain
    | wallet_switchEthereumChain _ => switch history
    | wallet_addEthereumChain _ => add
    | eth_getBalance _ => Normal balance
    | eth_sendTransaction _ _ _ => send
    end.

Definition alice : string := "0xAB00000000000000000000000000000000000001".
Definition bob : string := "0xCD00000000000000000000000000000000000002".

(** A wallet with two accounts on mainnet holding 1.234567999999999999 ETH. *)
Definition two_accounts : Provider :=
  scripted [alice; bob] "0x1" (fun _ => Normal tt) (Normal tt)
           1234567999999999999 (Normal (Some "0xfeed")).

(** A wallet that grants access but has no account. *)
Definition no_accounts : Provider :=
  scripted [] "0x1" (fun _ => Normal tt) (Normal tt) 0 (Normal None).

(** A wallet that does not know the chain and whose user declines adding it. *)
Definition declines_add : Provider :=
  scripted [alice] "0x1"
           (fun _ => Throw (JsError (Some 4902%Z) "Unrecognized chain ID"))
           (Throw (JsError (Some 4001%Z) "User rejected the request."))
           0 (Normal None).

(** A wallet that learns the chain once it has been added. *)
Definition learns_chain : Provider :=
  scripted [alice] "0x1"
           (fun history =>
              if existsb is_add history then Normal tt
              else Throw (JsError (Some 4902%Z) "Unrecognized chain ID"))
           (Normal tt) 0 (Normal None).

Definition is_hex_digit (a : Ascii.ascii) : bool :=
  let n := Ascii.nat_of_ascii a in
  ((48 <=? n) && (n <=? 57) || (65 <=? n) && (n <=? 70) || (97 <=? n) && (n <=? 102))%nat.

Fixpoint all_hex (s : string) : bool :=
  match s with
  | EmptyString => true
  | String a s' => is_hex_digit a && all_hex s'
  end.

(** A stand-in for [web3.utils.isAddress]: ["0x"] and forty hex digits. *)
Definition sample_isAddress (s : string) : bool :=
  match s with
  | String "0" (String "x" rest) => (String.length rest =? 40)%nat && all_hex rest
  | _ => false
  end.

(** A stand-in for [Number(s)] on the few strings the examples use. *)
Definition sample_Number (s : string) : spec_float :=
  if String.eqb s "0.01" then parseFloat (Decimal 1 2)
  else if String.eqb s "0" then S754_zero false
  else if String.eqb s "" then S754_zero false
  else if String.eqb s "-1" then SFopp (of_Z64 1)
  else S754_nan.

Definition sample_toWei (s : string) : completion string :=
  if String.eqb s "0.01" then Normal "10000000000000000"
  else Throw (Error "invalid number value").

Definition sample_env (p : option Provider) : Env :=
  {| ethereum := p;
     ls_throws := fun _ _ => None;
     isAddress := sample_isAddress;
     Number := sample_Number;
     toWei := sample_toWei |}.

(** An environment in which every [localStorage] call throws. *)
Definition blocked_storage_env (p : option Provider) : Env :=
  {| ethereum := p;
     ls_throws := fun _ _ => Some (JsError None "The operation is insecure.");
     isAddress := sample_isAddress;
     Number := sample_Number;
     toWei := sample_toWei |}.

Definition fresh_page : World :=
  {| localStorage := ∅; console := []; requests := []; ui := initial_state |}.

(** The page of a user connected as [alice] on mainnet. *)
Definition alice_state (p : Provider) : AppState :=
  {| web3 := Some p; account := alice; chainId := "0x1"; balanceEth := JStr "0";
     to := ""; amountEth := ""; status := ""; selectedChain := "0x1" |}.

(** The same page with the send form filled in. *)
Definition alice_form (p : Provider) (recipient amount : string) : AppState :=
  {| web3 := Some p; account := alice; chainId := "0x1"; balanceEth := JStr "0";
     to := recipient; amountEth := amount; status := ""; selectedChain := "0x1" |}.

Definition alice_page (p : Provider) : World :=
  {| localStorage := <[KEYS.account := alice]> (<[KEYS.chain := "0x1"]> ∅);
     console := []; requests := []; ui := alice_state p |}.

(** ** Further observations and sample environments *)

(** A page reload: [localStorage] survives, the React state starts again from
    the [useState] initial values. *)
Definition reload (w : World) : World := with_ui initial_state w.

(** The Web3 instance, when there is one, wraps the injected provider. *)
Definition web3_wraps_provider (env : Env) (s : AppState) : Prop :=
  web3 s = None \/ web3 s = ethereum env.

(** A timeout is pending exactly while a status message is shown. *)
Definition timer_consistent (t : Timed) : Prop :=
  timer t = None <-> status (page t) = "".

(** A wallet whose user declines the connection prompt. *)
Definition declines_connect : Provider :=
  fun history r =>
    match r as r0 return completion (reply r0) with
    | eth_requestAccounts => Throw (JsError (Some 4001%Z) "User rejected the request.")
    | eth_accounts => Normal []
    | eth_chainId => Normal "0x1"
    | wallet_switchEthereumChain _ => Normal tt
    | wallet_addEthereumChain _ => Normal tt
    | eth_getBalance _ => Normal 0%N
    | eth_sendTransaction _ _ _ => Normal None
    end.

(** A wallet for alice whose node is unreachable: balance queries and
    transactions are rejected. *)
Definition node_down : Provider :=
  fun history r =>
    match r as r0 return completion (reply r0) with
    | eth_requestAccounts => Normal [alice]
    | eth_accounts => Normal [alice]
    | eth_chainId => Normal "0x1"
    | wallet_switchEthereumChain _ => Normal tt
    | wallet_addEthereumChain _ => Normal tt
    | eth_getBalance _ => Throw (JsError (Some (-32603)%Z) "Internal JSON-RPC error.")
    | eth_sendTransaction _ _ _ => Throw (JsError (Some (-32603)%Z) "Internal JSON-RPC error.")
    end.


(** A wallet that is locked: the account query is rejected. *)
Definition locked_wallet : Provider :=
  fun history r =>
    match r as r0 return completion (reply r0) with
    | eth_requestAccounts => Throw (Error "wallet is locked")
    | eth_accounts => Throw (Error "wallet is locked")
    | eth_chainId => Normal "0x1"
    | wallet_switchEthereumChain _ => Normal tt
    | wallet_addEthereumChain _ => Normal tt
    | eth_getBalance _ => Normal 0%N
    | eth_sendTransaction _ _ _ => Normal None
    end.

(** An environment whose storage is full: every [setItem] throws, reads and
    removals work. *)
Definition full_storage_env (p : option Provider) : Env :=
  {| ethereum := p;
     ls_throws := fun _ c =>
       match c with
       | SetItem _ _ => Some (JsError (Some 22%Z) "QuotaExceededError")
       | _ => None
       end;
     isAddress := sample_isAddress;
     Number := sample_Number;
     toWei := sample_toWei |}.

(** An environment in which removing the chain key throws. *)
Definition sticky_chain_env (p : option Provider) : Env :=
  {| ethereum := p;
     ls_throws := fun _ c =>
       match c with
       | RemoveItem key =>
           if String.eqb key KEYS.chain then Some (JsError None "remove failed") else None
       | _ => None
       end;
     isAddress := sample_isAddress;
     Number := sample_Number;
     toWei := sample_toWei |}.

(** * Properties *)

(** ** The monad and the primitive effects *)

Lemma bind_normal {A B} (c : JS A) (k : A -> JS B) w w' a :
  c w = (w', Normal a) -> bind c k w = k a w'.
Proof. intros H. unfold bind. now rewrite H. Qed.

Lemma bind_modify_ui {B} (f : AppState -> AppState) (k : unit -> JS B) w :
  bind (modify_ui f) k w = k tt (with_ui (f (ui w)) w).
Proof. reflexivity. Qed.

Ltac run_setters :=
  unfold setWeb3, setAccount, setChainId, setBalanceEth, setTo, setAmountEth,
    setStatus, setSelectedChain;
  rewrite ?bind_modify_ui.

Lemma truthy_false (s : string) : truthy s = false <-> s = "".
Proof. destruct s; simpl; split; congruence. Qed.

Lemma truthy_true (s : string) : truthy s = true <-> s <> "".
Proof. destruct s; simpl; split; congruence. Qed.

Lemma includes_In (accounts : list string) (x : string) :
  includes accounts x = true <-> In x accounts.
Proof.
  unfold includes. rewrite existsb_exists. split.
  - intros [y [Hin Heq]]. apply String.eqb_eq in Heq. now subst.
  - intros Hin. exists x. split; [assumption | apply String.eqb_refl].
Qed.

(** ** src/libs/storage.js *)

Ltac storage_cases env w :=
  repeat match goal with
  | |- context [ls_throws env ?m ?c] =>
      let E := fresh "E" in destruct (ls_throws env m c) eqn:E; simpl
  end.

(** What [saveSession] leaves behind, whatever the storage does. *)
Lemma saveSession_frame (env : Env) (account chainId : string) (w : World) :
  let r := saveSession env account chainId w in
  outcome r = Normal tt /\
  ui (final r) = ui w /\
  requests (final r) = requests w /\
  (console (final r) = console w \/
   exists err, console (final r) = console w ++ [("Failed to save session:", err)]).
Proof.
  unfold saveSession, try_catch, bind, when, localStorage_setItem, console_error,
    final, outcome.
  destruct (truthy account), (truthy chainId); simpl; storage_cases env w; eauto 6.
Qed.

Lemma clearSession_frame (env : Env) (w : World) :
  let r := clearSession env w in
  outcome r = Normal tt /\
  ui (final r) = ui w /\
  requests (final r) = requests w /\
  (console (final r) = console w \/
   exists err, console (final r) = console w ++ [("Failed to clear session:", err)]).
Proof.
  unfold clearSession, try_catch, bind, localStorage_removeItem, console_error,
    final, outcome.
  simpl; storage_cases env w; eauto 6.
Qed.

Lemma loadSession_frame (env : Env) (w : World) :
  let r := loadSession env w in
  localStorage (final r) = localStorage w /\
  ui (final r) = ui w /\
  requests (final r) = requests w /\
  (console (final r) = console w \/
   exists err, console (final r) = console w ++ [("Failed to load session:", err)]).
Proof.
  unfold loadSession, try_catch, bind, localStorage_getItem, console_error, ret,
    final, outcome.
  simpl; storage_cases env w; eauto 6.
Qed.

Lemma loadSession_returns (env : Env) (w : World) :
  outcome (loadSession env w) = Normal (persisted env w).
Proof.
  unfold persisted. 
  unfold loadSession, try_catch, bind, localStorage_getItem, console_error, ret, outcome.
  simpl; storage_cases env w; reflexivity.
Qed.

Lemma saveSession_storage (env : Env) (account chainId : string) (w : World) :
  storage_works env ->
  localStorage (final (saveSession env account chainId w)) =
    (if truthy chainId then <[KEYS.chain := chainId]> else id)
      ((if truthy account then <[KEYS.account := account]> else id) (localStorage w)).
Proof.
  intros Hok.
  unfold saveSession, try_catch, bind, when, localStorage_setItem, final.
  destruct (truthy account), (truthy chainId); simpl; rewrite ?Hok; simpl;
    rewrite ?Hok; reflexivity.
Qed.

Lemma clearSession_storage (env : Env) (w : World) :
  (forall m key, ls_throws env m (RemoveItem key) = None) ->
  localStorage (final (clearSession env w)) =
    delete KEYS.chain (delete KEYS.account (localStorage w)).
Proof.
  intros Hok.
  unfold clearSession, try_catch, bind, localStorage_removeItem, final.
  simpl. rewrite Hok. simpl. rewrite Hok. reflexivity.
Qed.

(** C9: saveSession, loadSession and clearSession never raise a storage
    failure to their caller: each completes normally for every storage
    behaviour, changes nothing but the storage and at most one console line,
    and loadSession returns the two empty strings whenever a read throws or
    storage holds neither key. *)
Theorem session_store_fail_soft (env : Env) (w : World) (account chainId : string) :
  (outcome (saveSession env account chainId w) = Normal tt /\
   outcome (clearSession env w) = Normal tt /\
   exists s, outcome (loadSession env w) = Normal s) /\
  (length (console (final (saveSession env account chainId w))) <= S (length (console w)) /\
   length (console (final (clearSession env w))) <= S (length (console w)) /\
   length (console (final (loadSession env w))) <= S (length (console w)))%nat /\
  ((ls_throws env (localStorage w) (GetItem KEYS.account) <> None \/
    ls_throws env (localStorage w) (GetItem KEYS.chain) <> None \/
    (localStorage w !! KEYS.account = None /\ localStorage w !! KEYS.chain = None)) ->
   outcome (loadSession env w) =
     Normal {| Session.account := ""; Session.chainId := "" |}).
Proof.
  split; [| split].
  - split; [apply saveSession_frame | split; [apply clearSession_frame |]].
    eexists. apply loadSession_returns.
  - destruct (saveSession_frame env account chainId w) as (_ & _ & _ & Hs).
    destruct (clearSession_frame env w) as (_ & _ & _ & Hc).
    destruct (loadSession_frame env w) as (_ & _ & _ & Hl).
    repeat split.
    + destruct Hs as [-> | [e ->]]; rewrite ?length_app; simpl; lia.
    + destruct Hc as [-> | [e ->]]; rewrite ?length_app; simpl; lia.
    + destruct Hl as [-> | [e ->]]; rewrite ?length_app; simpl; lia.
  - unfold loadSession, try_catch, bind, localStorage_getItem, console_error, ret, outcome.
    simpl. intros H.
    destruct (ls_throws env (localStorage w) (GetItem KEYS.account)) eqn:Ea; simpl;
      [reflexivity |].
    destruct (ls_throws env (localStorage w) (GetItem KEYS.chain)) eqn:Ec; simpl;
      [reflexivity |].
    destruct H as [H | [H | [Ha Hc]]]; try congruence.
    now rewrite Ha, Hc.
Qed.

Lemma saveSession_run (env : Env) (a c : string) (w : World) :
  exists w', saveSession env a c w = (w', Normal tt) /\
             ui w' = ui w /\ requests w' = requests w.
Proof.
  destruct (saveSession_frame env a c w) as (Ho & Hu & Hr & _).
  destruct (saveSession env a c w) as [w' o]. simpl in *.
  exists w'. subst o. auto.
Qed.

Lemma clearSession_run (env : Env) (w : World) :
  exists w', clearSession env w = (w', Normal tt) /\
             ui w' = ui w /\ requests w' = requests w.
Proof.
  destruct (clearSession_frame env w) as (Ho & Hu & Hr & _).
  destruct (clearSession env w) as [w' o]. simpl in *.
  exists w'. subst o. auto.
Qed.

Lemma refreshBalance_disconnected (c : AppState) (w : World) :
  wallet_connected c = false -> refreshBalance c w = (w, Normal tt).
Proof.
  unfold wallet_connected, refreshBalance.
  destruct (web3 c); [| reflexivity]. now intros ->.
Qed.

(** An argument that is empty leaves its key alone, whatever the storage
    does with the other write. *)
Lemma saveSession_empty_account (env : Env) (cid : string) (w : World) :
  localStorage (final (saveSession env "" cid w)) !! KEYS.account =
  localStorage w !! KEYS.account.
Proof.
  unfold saveSession, try_catch, bind, when, localStorage_setItem, console_error, final.
  simpl. destruct (truthy cid); simpl; [| reflexivity].
  destruct (ls_throws env (localStorage w) (SetItem KEYS.chain cid)); simpl;
    [reflexivity |].
  now rewrite lookup_insert_ne.
Qed.

Lemma saveSession_empty_chain (env : Env) (acc : string) (w : World) :
  localStorage (final (saveSession env acc "" w)) !! KEYS.chain =
  localStorage w !! KEYS.chain.
Proof.
  unfold saveSession, try_catch, bind, when, localStorage_setItem, console_error, final.
  simpl. destruct (truthy acc); simpl; [| reflexivity].
  destruct (ls_throws env (localStorage w) (SetItem KEYS.account acc)); simpl;
    [reflexivity |].
  now rewrite lookup_insert_ne.
Qed.

(** C10: saveSession writes a key only for a non-empty argument and leaves the
    key of an empty argument as it was; so a chain-changed reconciliation run
    by a render whose account is empty stores the new chain id and keeps
    whatever account was stored before. *)
Theorem saveSession_keeps_key_of_empty_argument
    (env : Env) (w : World) (acc cid : string) :
  localStorage (final (saveSession env "" cid w)) !! KEYS.account =
    localStorage w !! KEYS.account /\
  localStorage (final (saveSession env acc "" w)) !! KEYS.chain =
    localStorage w !! KEYS.chain /\
  (storage_works env ->
   localStorage (final (saveSession env acc cid w)) =
     (if truthy cid then <[KEYS.chain := cid]> else id)
       ((if truthy acc then <[KEYS.account := acc]> else id) (localStorage w))) /\
  (forall c : AppState,
     storage_works env -> account c = "" -> cid <> "" ->
     let w' := final (onChainChanged env c cid w) in
     localStorage w' !! KEYS.chain = Some cid /\
     localStorage w' !! KEYS.account = localStorage w !! KEYS.account /\
     chainId (ui w') = cid).
Proof.
  split; [apply saveSession_empty_account |].
  split; [apply saveSession_empty_chain |].
  split; [apply saveSession_storage |].
  intros c Hok Hacc Hcid w'. subst w'.
  unfold onChainChanged. rewrite Hacc. run_setters.
  match goal with
  | |- context [bind (saveSession env "" cid) _ ?w0] =>
      pose proof (saveSession_storage env "" cid w0 Hok) as Hs;
      destruct (saveSession_run env "" cid w0) as (w2 & E & Hu & Hr)
  end.
  rewrite (bind_normal _ _ _ _ _ E).
  rewrite E in Hs. simpl in Hs.
  apply truthy_true in Hcid. rewrite Hcid in Hs.
  run_setters.
  rewrite refreshBalance_disconnected
    by (unfold wallet_connected; rewrite Hacc; now destruct (web3 c)).
  simpl. rewrite Hs, Hu. simpl.
  rewrite lookup_insert_eq, lookup_insert_ne by discriminate. auto.
Qed.

(** ** Provider events *)

(** C5: whatever the account, chain id, balance and stored session were, the
    accounts-changed handler called with an empty list sets status
    "Disconnected", empties the account, resets the balance to "0" and removes
    both stored keys (provided localStorage.removeItem does not throw). *)
Theorem accounts_changed_empty_disconnects (env : Env) (c : AppState) (w : World) :
  let r := onAccountsChanged env c [] w in
  outcome r = Normal tt /\
  status (ui (final r)) = "Disconnected" /\
  account (ui (final r)) = "" /\
  balanceEth (ui (final r)) = JStr "0" /\
  ((forall m key, ls_throws env m (RemoveItem key) = None) ->
   localStorage (final r) !! KEYS.account = None /\
   localStorage (final r) !! KEYS.chain = None).
Proof.
  unfold onAccountsChanged. simpl. run_setters.
  match goal with
  | |- context [bind (clearSession env) _ ?w0] =>
      pose proof (clearSession_storage env w0) as Hs;
      destruct (clearSession_run env w0) as (w2 & E & Hu & Hr)
  end.
  rewrite (bind_normal _ _ _ _ _ E). rewrite E in Hs. simpl in Hs.
  run_setters. unfold modify_ui. simpl. rewrite Hu. simpl.
  repeat split; try reflexivity.
  - rewrite (Hs H). rewrite lookup_delete_ne by discriminate. apply lookup_delete_eq.
  - rewrite (Hs H). apply lookup_delete_eq.
Qed.

(** ** Auto-reconnect *)

Lemma or_else_empty_r (s : string) : or_else s "" = s.
Proof. now destruct s. Qed.

Lemma loadSession_run (env : Env) (w : World) :
  exists w', loadSession env w = (w', Normal (persisted env w)) /\
             localStorage w' = localStorage w /\ ui w' = ui w /\
             requests w' = requests w.
Proof.
  pose proof (loadSession_returns env w) as Ho.
  destruct (loadSession_frame env w) as (Hl & Hu & Hr & _).
  destruct (loadSession env w) as [w' o]. simpl in *.
  exists w'. subst o. auto.
Qed.

(** C6: the startup effect sends at most one request, the read-only
    eth_accounts; with no stored account it changes neither the state, the
    storage nor the request log; with a stored account it adopts the stored
    account and chain id exactly when the provider lists that account, and
    otherwise leaves the state as it was and removes the stored session. *)
Theorem auto_reconnect_revalidates (env : Env) (w : World) :
  let r := autoReconnect env w in
  let saved := persisted env w in
  outcome r = Normal tt /\
  (requests (final r) = requests w \/
   requests (final r) = requests w ++ [eth_accounts]) /\
  (Session.account saved = "" ->
   ui (final r) = ui w /\ localStorage (final r) = localStorage w /\
   requests (final r) = requests w) /\
  (forall p accounts,
     ethereum env = Some p ->
     Session.account saved <> "" ->
     p (requests w) eth_accounts = Normal accounts ->
     (In (Session.account saved) accounts ->
      account (ui (final r)) = Session.account saved /\
      chainId (ui (final r)) = Session.chainId saved /\
      selectedChain (ui (final r)) = or_else (Session.chainId saved) "0x1" /\
      web3 (ui (final r)) = Some p /\
      localStorage (final r) = localStorage w) /\
     (~ In (Session.account saved) accounts ->
      ui (final r) = ui w /\
      ((forall m key, ls_throws env m (RemoveItem key) = None) ->
       localStorage (final r) !! KEYS.account = None /\
       localStorage (final r) !! KEYS.chain = None))) /\
  (ui (final r) <> ui w ->
   exists p accounts,
     ethereum env = Some p /\
     p (requests w) eth_accounts = Normal accounts /\
     In (Session.account saved) accounts).
Proof.
  intros r saved. subst r. unfold autoReconnect.
  destruct (loadSession_run env w) as (w0 & EL & Hl0 & Hu0 & Hr0).
  rewrite (bind_normal _ _ _ _ _ EL). fold saved. unfold provider.
  destruct (ethereum env) as [p |] eqn:Ep.
  2:{ simpl. rewrite Hu0, Hl0, Hr0.
      repeat split; auto; try congruence; try (intros; discriminate). }
  destruct (truthy (Session.account saved)) eqn:Et.
  2:{ simpl. rewrite Hu0, Hl0, Hr0. apply truthy_false in Et.
      repeat split; auto; try congruence. }
  apply truthy_true in Et.
  unfold then_, try_catch, bind, provider_request. rewrite Hr0.
  destruct (p (requests w) eth_accounts) as [accounts | err] eqn:Eacc.
  2:{ simpl. rewrite Hu0, Hl0.
      repeat split; auto; try congruence; try (intros; discriminate). }
  destruct (includes accounts (Session.account saved)) eqn:Ei.
  - apply includes_In in Ei. simpl.
    rewrite or_else_empty_r.
    split; [reflexivity |]. split; [now right |]. split; [congruence |].
    split.
    + intros p' accounts' Hp' _ Hacc'.
      assert (p' = p) by congruence. subst p'.
      assert (accounts' = accounts) by congruence. subst accounts'.
      split; [auto | intros Hn; contradiction].
    + intros _. exists p, accounts. auto.
  - assert (Hnot : ~ In (Session.account saved) accounts).
    { intros Hin. apply includes_In in Hin. congruence. }
    match goal with
    | |- context [clearSession env ?wc] =>
        pose proof (clearSession_storage env wc) as Hs;
        destruct (clearSession_run env wc) as (w2 & E & Hu & Hr)
    end.
    rewrite E in *. simpl in *.
    rewrite Hu, Hr, Hu0.
    split; [reflexivity |]. split; [now right |]. split; [congruence |].
    split.
    + intros p' accounts' Hp' _ Hacc'.
      assert (p' = p) by congruence. subst p'.
      assert (accounts' = accounts) by congruence. subst accounts'.
      split; [intros Hin; contradiction |].
      intros _. split; [reflexivity |].
      intros Hok. rewrite (Hs Hok), Hl0. split.
      * rewrite lookup_delete_ne by discriminate. apply lookup_delete_eq.
      * apply lookup_delete_eq.
    + intros Hne. congruence.
Qed.

(** ** connect *)

Lemma connect_try_run (env : Env) (p : Provider) (accs : list string) (cid : string)
    (w : World) :
  ethereum env = Some p ->
  p (requests w) eth_requestAccounts = Normal accs ->
  p (requests w ++ [eth_requestAccounts]) eth_chainId = Normal cid ->
  let first := opt_or_else (head accs) "" in
  exists w2,
    connect_try env w = (with_ui (with_status "Connected" (ui w2)) w2, Normal tt) /\
    localStorage w2 = localStorage (final (saveSession env first cid w)) /\
    requests w2 = requests w ++ [eth_requestAccounts; eth_chainId] /\
    ui w2 =
      {| web3 := Some p; account := first; chainId := cid;
         balanceEth := balanceEth (ui w); to := to (ui w);
         amountEth := amountEth (ui w); status := status (ui w);
         selectedChain := cid |}.
Proof.
  intros Hp Haccs Hcid first.
  unfold connect_try, provider. rewrite Hp.
  unfold bind at 1, provider_request at 1. rewrite Haccs.
  unfold bind at 1, provider_request at 1. simpl requests. rewrite Hcid.
  fold first. run_setters.
  match goal with
  | |- context [bind (saveSession env first cid) _ ?w0] =>
      destruct (saveSession_run env first cid w0) as (w2 & E & Hu & Hr);
      pose proof (f_equal (fun r => localStorage (fst r)) E) as Hs
  end.
  rewrite (bind_normal _ _ _ _ _ E).
  exists w2. split; [reflexivity |].
  split.
  - simpl in Hs. rewrite <- Hs. clear.
    unfold saveSession, try_catch, bind, when, localStorage_setItem, console_error, final.
    simpl.
    destruct (truthy first), (truthy cid); simpl; storage_cases env w; reflexivity.
  - split.
    + rewrite Hr. simpl. now rewrite <- app_assoc.
    + rewrite Hu. reflexivity.
Qed.

(** C1 (as the code has it): when the provider grants the account request,
    connect never fails for lack of accounts and never throws; it then sends
    the eth_chainId request.  When that is answered, connect sets the account
    to the first returned address, or to the empty string when the list is
    empty, sets chainId and the selected chain, keeps the Web3 instance,
    stores the session through saveSession and sets status "Connected".  When
    it is rejected, nothing is adopted or stored and the status is the
    error's message (or "Connect failed").  Either way exactly the two
    requests eth_requestAccounts and eth_chainId have been sent. *)
Theorem connect_adopts_first_or_empty
    (env : Env) (p : Provider) (accs : list string) (w : World) :
  ethereum env = Some p ->
  p (requests w) eth_requestAccounts = Normal accs ->
  let r := connect env w in
  let first := opt_or_else (head accs) "" in
  outcome r = Normal tt /\
  requests (final r) = requests w ++ [eth_requestAccounts; eth_chainId] /\
  match p (requests w ++ [eth_requestAccounts]) eth_chainId with
  | Normal cid =>
      outcome (connect_try env w) = Normal tt /\
      account (ui (final r)) = first /\
      chainId (ui (final r)) = cid /\
      selectedChain (ui (final r)) = cid /\
      web3 (ui (final r)) = Some p /\
      status (ui (final r)) = "Connected" /\
      localStorage (final r) = localStorage (final (saveSession env first cid w)) /\
      (storage_works env -> first <> "" -> cid <> "" ->
       localStorage (final r) !! KEYS.account = Some first /\
       localStorage (final r) !! KEYS.chain = Some cid)
  | Throw err =>
      outcome (connect_try env w) = Throw err /\
      ui (final r) = with_status (or_else (message err) "Connect failed") (ui w) /\
      localStorage (final r) = localStorage w
  end.
Proof.
  intros Hp Haccs r first. subst r.
  destruct (p (requests w ++ [eth_requestAccounts]) eth_chainId) as [cid | err] eqn:Hcid.
  - destruct (connect_try_run env p accs cid w Hp Haccs Hcid) as (w2 & E & Hl & Hr & Hu).
    fold first in Hl, Hu.
    unfold connect, try_catch. rewrite E. simpl. rewrite Hu. simpl.
    repeat split; auto.
    + rewrite Hl, saveSession_storage by assumption.
      apply truthy_true in H0, H1. rewrite H0, H1.
      rewrite lookup_insert_ne by discriminate. apply lookup_insert_eq.
    + rewrite Hl, saveSession_storage by assumption.
      apply truthy_true in H1. rewrite H1. apply lookup_insert_eq.
  - assert (E : connect_try env w =
                  ({| localStorage := localStorage w; console := console w;
                      requests := requests w ++ [eth_requestAccounts; eth_chainId];
                      ui := ui w |}, Throw err)).
    { unfold connect_try, provider. rewrite Hp.
      unfold bind, provider_request. rewrite Haccs. simpl requests. rewrite Hcid.
      simpl. now rewrite <- app_assoc. }
    unfold connect, try_catch. rewrite E. simpl. auto.
Qed.

(** ** src/libs/network.js: switchOrAddChain *)

(** The provider traffic and the result of [switchOrAddChain], case by case. *)
Lemma switchOrAddChain_run (p : Provider) (hexChainId : string) (w : World) :
  let r := switchOrAddChain p hexChainId w in
  let switch := wallet_switchEthereumChain hexChainId in
  ui (final r) = ui w /\ localStorage (final r) = localStorage w /\
  console (final r) = console w /\
  match p (requests w) switch with
  | Normal _ => requests (final r) = requests w ++ [switch] /\ outcome r = Normal tt
  | Throw err =>
      match is_4902 err, CHAIN_PARAMS_at hexChainId with
      | true, Some params =>
          let add := wallet_addEthereumChain params in
          match p (requests w ++ [switch]) add with
          | Normal _ =>
              requests (final r) = requests w ++ [switch; add; switch] /\
              outcome r = p (requests w ++ [switch; add]) switch
          | Throw err' =>
              requests (final r) = requests w ++ [switch; add] /\
              outcome r = Throw err'
          end
      | _, _ => requests (final r) = requests w ++ [switch] /\ outcome r = Throw err
      end
  end.
Proof.
  unfold switchOrAddChain, try_catch, bind, provider_request, throw, final, outcome.
  simpl.
  destruct (p (requests w) (wallet_switchEthereumChain hexChainId)) as [[] | err];
    simpl; [auto |].
  destruct (is_4902 err); simpl; [| auto].
  destruct (CHAIN_PARAMS_at hexChainId) as [params |]; simpl; [| auto].
  destruct (p (requests w ++ [wallet_switchEthereumChain hexChainId])
              (wallet_addEthereumChain params)) as [[] | err'];
    simpl; rewrite <- ?app_assoc; simpl; auto.
Qed.

Lemma sent_during_app (w w' : World) (l : list request) :
  requests w' = requests w ++ l -> sent_during w w' = l.
Proof. intros H. unfold sent_during. rewrite H. apply drop_app_length. Qed.

Lemma CHAIN_PARAMS_at_own_keys_only (key : string) :
  names_Object_prototype_member key = false ->
  CHAIN_PARAMS_at key = OwnEntry <$> CHAIN_PARAMS !! key.
Proof.
  intros H. unfold CHAIN_PARAMS_at. rewrite H. now destruct (CHAIN_PARAMS !! key).
Qed.

(** The requests [switchOrAddChain] sends and its result, for every target. *)
Lemma switchOrAddChain_sent (p : Provider) (hexChainId : string) (w : World) :
  let r := switchOrAddChain p hexChainId w in
  let sent := sent_during w (final r) in
  let switch := wallet_switchEthereumChain hexChainId in
  match p (requests w) switch with
  | Normal _ => sent = [switch] /\ outcome r = Normal tt
  | Throw err =>
      match is_4902 err, CHAIN_PARAMS_at hexChainId with
      | true, Some params =>
          let add := wallet_addEthereumChain params in
          match p (requests w ++ [switch]) add with
          | Normal _ =>
              sent = [switch; add; switch] /\
              outcome r = p (requests w ++ [switch; add]) switch
          | Throw err' => sent = [switch; add] /\ outcome r = Throw err'
          end
      | _, _ => sent = [switch] /\ outcome r = Throw err
      end
  end.
Proof.
  intros r sent switch.
  destruct (switchOrAddChain_run p hexChainId w) as (_ & _ & _ & H).
  fold r switch in H. subst sent. cbv zeta in H |- *.
  destruct (p (requests w) switch) as [[] | err].
  { destruct H as [Hr Ho]. now rewrite (sent_during_app _ _ _ Hr). }
  destruct (is_4902 err), (CHAIN_PARAMS_at hexChainId) as [params |];
    try (destruct H as [Hr Ho]; now rewrite (sent_during_app _ _ _ Hr)).
  destruct (p (requests w ++ [switch]) (wallet_addEthereumChain params)) as [[] | err'];
    destruct H as [Hr Ho]; now rewrite (sent_during_app _ _ _ Hr).
Qed.

(** C2 (as the code has it): for every target, switchOrAddChain sends the
    switch request first and never more than 2 switch requests and 1 add
    request.  For a target that does not name a member inherited from
    Object.prototype: if and only if the first switch is rejected with code
    4902 and CHAIN_PARAMS has the target id, it sends one add request with
    that descriptor, and if that add succeeds one retried switch; a rejection
    of the first switch for another reason, of the add, or of the retried
    switch is rethrown unchanged. *)
Theorem switchOrAddChain_bounded_retry (p : Provider) (hexChainId : string) (w : World) :
  let r := switchOrAddChain p hexChainId w in
  let sent := sent_during w (final r) in
  let switch := wallet_switchEthereumChain hexChainId in
  (count_switch sent <= 2)%nat /\
  (count_add sent <= 1)%nat /\
  head sent = Some switch /\
  (names_Object_prototype_member hexChainId = false ->
   match p (requests w) switch with
   | Normal _ => sent = [switch] /\ outcome r = Normal tt
   | Throw err =>
       match is_4902 err, CHAIN_PARAMS !! hexChainId with
       | true, Some params =>
           let add := wallet_addEthereumChain (OwnEntry params) in
           match p (requests w ++ [switch]) add with
           | Normal _ =>
               sent = [switch; add; switch] /\
               outcome r = p (requests w ++ [switch; add]) switch
           | Throw err' => sent = [switch; add] /\ outcome r = Throw err'
           end
       | _, _ => sent = [switch] /\ outcome r = Throw err
       end
   end /\
   (count_add sent = 1%nat <->
    exists err params,
      p (requests w) switch = Throw err /\ is_4902 err = true /\
      CHAIN_PARAMS !! hexChainId = Some params)).
Proof.
  intros r sent switch.
  pose proof (switchOrAddChain_sent p hexChainId w) as H.
  subst r sent switch. cbv zeta in H.
  set (switch := wallet_switchEthereumChain hexChainId) in *.
  set (r := switchOrAddChain p hexChainId w) in *.
  set (sent := sent_during w (final r)) in *.
  clearbody sent r.
  assert (Hshape : sent = [switch] \/
                   exists params,
                     CHAIN_PARAMS_at hexChainId = Some params /\
                     (sent = [switch; wallet_addEthereumChain params] \/
                      sent = [switch; wallet_addEthereumChain params; switch])).
  { destruct (p (requests w) switch) as [[] | err]; [left; apply H |].
    destruct (is_4902 err), (CHAIN_PARAMS_at hexChainId) as [params |];
      try (left; apply H).
    right. exists params. split; [reflexivity |].
    destruct (p (requests w ++ [switch]) (wallet_addEthereumChain params)) as [[] | err'];
      [right | left]; apply H. }
  split; [| split; [| split]].
  - destruct Hshape as [-> | (params & _ & [-> | ->])];
      subst switch; unfold count_switch; simpl; lia.
  - destruct Hshape as [-> | (params & _ & [-> | ->])];
      subst switch; unfold count_add; simpl; lia.
  - destruct Hshape as [-> | (params & _ & [-> | ->])]; reflexivity.
  - intros Hown. clear Hshape.
    rewrite (CHAIN_PARAMS_at_own_keys_only hexChainId Hown) in H.
    destruct (p (requests w) switch) as [[] | err] eqn:E1.
    { split; [exact H |]. destruct H as [-> _].
      subst switch. unfold count_add. simpl. split; [discriminate |].
      intros (e & d & He & _). discriminate. }
    destruct (is_4902 err) eqn:E2.
    2:{ assert (Hs : sent = [switch] /\ outcome r = Throw err)
          by (destruct (OwnEntry <$> CHAIN_PARAMS !! hexChainId); exact H).
        split; [destruct (CHAIN_PARAMS !! hexChainId); exact Hs |].
        destruct Hs as [-> _]. subst switch. unfold count_add. simpl.
        split; [discriminate |]. intros (e & d & He & H4 & _). congruence. }
    destruct (CHAIN_PARAMS !! hexChainId) as [params |] eqn:E3; simpl in H.
    2:{ split; [exact H |]. destruct H as [-> _].
        subst switch. unfold count_add. simpl. split; [discriminate |].
        intros (e & d & _ & _ & Hd). discriminate. }
    split; [exact H |].
    destruct (p (requests w ++ [switch]) (wallet_addEthereumChain (OwnEntry params)))
      as [[] | err']; destruct H as [-> _];
      subst switch; unfold count_add; simpl; split; eauto.
Qed.

(** ** handleChangeNetwork *)

Lemma switchOrAddChain_with_ui (p : Provider) (hexChainId : string) (s : AppState)
    (w : World) :
  switchOrAddChain p hexChainId (with_ui s w) =
    (with_ui s (final (switchOrAddChain p hexChainId w)),
     outcome (switchOrAddChain p hexChainId w)).
Proof.
  unfold switchOrAddChain, try_catch, bind, provider_request, throw, final, outcome.
  simpl.
  destruct (p (requests w) (wallet_switchEthereumChain hexChainId)) as [[] | err];
    simpl; [reflexivity |].
  destruct (is_4902 err); simpl; [| reflexivity].
  destruct (CHAIN_PARAMS_at hexChainId) as [params |]; simpl; [| reflexivity].
  destruct (p (requests w ++ [wallet_switchEthereumChain hexChainId])
              (wallet_addEthereumChain params)) as [[] | err'];
    reflexivity.
Qed.

Lemma refreshBalance_frame (c : AppState) (w : World) :
  let r := refreshBalance c w in
  outcome r = Normal tt /\
  localStorage (final r) = localStorage w /\
  web3 (ui (final r)) = web3 (ui w) /\
  account (ui (final r)) = account (ui w) /\
  chainId (ui (final r)) = chainId (ui w) /\
  to (ui (final r)) = to (ui w) /\
  amountEth (ui (final r)) = amountEth (ui w) /\
  selectedChain (ui (final r)) = selectedChain (ui w).
Proof.
  unfold refreshBalance.
  destruct (web3 c) as [w3 |]; [| simpl; tauto].
  destruct (truthy (account c)); [| simpl; tauto].
  unfold try_catch, bind, provider_request. simpl.
  destruct (w3 (requests w) (eth_getBalance (account c))); simpl; tauto.
Qed.

(** C4 (as the code has it): handleChangeNetwork itself never changes
    chainId, the account or the stored session.  When the add-or-switch
    sequence succeeds it selects the target chain and sets status
    "Switched to <name>"; when it fails the status is the error's message (or
    "Failed to switch network") and the selection is unchanged; without a
    provider the status is "MetaMask not found".  It never throws.  The new
    chain id is adopted and stored when the chain-changed handler runs for
    it. *)
Theorem handleChangeNetwork_leaves_chainId (env : Env) (hexId : string) (w : World) :
  let r := handleChangeNetwork env hexId w in
  outcome r = Normal tt /\
  chainId (ui (final r)) = chainId (ui w) /\
  account (ui (final r)) = account (ui w) /\
  web3 (ui (final r)) = web3 (ui w) /\
  localStorage (final r) = localStorage w /\
  match ethereum env with
  | None =>
      status (ui (final r)) = "MetaMask not found" /\
      selectedChain (ui (final r)) = selectedChain (ui w)
  | Some p =>
      match outcome (switchOrAddChain p hexId w) with
      | Normal _ =>
          status (ui (final r)) = ("Switched to " ++ getChainName hexId)%string /\
          selectedChain (ui (final r)) = hexId
      | Throw err =>
          status (ui (final r)) = or_else (message err) "Failed to switch network" /\
          selectedChain (ui (final r)) = selectedChain (ui w)
      end
  end /\
  (forall c : AppState,
     storage_works env -> hexId <> "" ->
     let w' := final (onChainChanged env c hexId (final r)) in
     chainId (ui w') = hexId /\ localStorage w' !! KEYS.chain = Some hexId).
Proof.
  intros r. subst r. unfold handleChangeNetwork, provider.
  assert (Hevent : forall w0 (c : AppState),
            storage_works env -> hexId <> "" ->
            let w' := final (onChainChanged env c hexId w0) in
            chainId (ui w') = hexId /\ localStorage w' !! KEYS.chain = Some hexId).
  { intros w0 c Hok Hne. unfold onChainChanged. run_setters.
    match goal with
    | |- context [bind (saveSession env ?a hexId) _ ?w1] =>
        pose proof (saveSession_storage env a hexId w1 Hok) as Hs;
        destruct (saveSession_run env a hexId w1) as (w2 & E & Hu & Hr)
    end.
    rewrite (bind_normal _ _ _ _ _ E). rewrite E in Hs. simpl in Hs.
    apply truthy_true in Hne. rewrite Hne in Hs. run_setters.
    match goal with
    | |- context [refreshBalance c ?w3] =>
        destruct (refreshBalance_frame c w3) as (_ & Hl & _ & _ & Hc & _)
    end.
    cbv zeta. rewrite Hl, Hc. simpl. rewrite Hu, Hs. simpl.
    split; [reflexivity | apply lookup_insert_eq]. }
  destruct (ethereum env) as [p |].
  2:{ simpl. do 6 (split; [auto |]). intros c. apply Hevent. }
  unfold try_catch. run_setters.
  unfold bind. rewrite switchOrAddChain_with_ui.
  destruct (switchOrAddChain_run p hexId w) as (Hu & Hl & _ & _).
  destruct (switchOrAddChain p hexId w) as [w1 [[] | err]]; simpl in *;
    rewrite ?Hu, ?Hl; (do 5 (split; [reflexivity |])); (split; [auto |]);
    intros c; apply Hevent.
Qed.

(** ** sendEth *)

Lemma when_false (stmt : JS unit) (w : World) : when false stmt w = (w, Normal tt).
Proof. reflexivity. Qed.

(** C7 (as the code has it): sendEth never throws.  It first checks the
    connection (status "Connect wallet first"), then the recipient (status
    "Invalid recipient address"), then the amount (status "Enter a valid
    amount"); each rejection changes nothing but the status and sends no
    request.  The form fields [to] and [amountEth] change only when the
    transaction was submitted and the provider accepted it, and are then both
    emptied. *)
Theorem sendEth_validates_in_order (env : Env) (c : AppState) (w : World) :
  let r := sendEth env c w in
  outcome r = Normal tt /\
  (wallet_connected c = false ->
   final r = with_ui (with_status "Connect wallet first" (ui w)) w) /\
  (wallet_connected c = true -> isAddress env (to c) = false ->
   final r = with_ui (with_status "Invalid recipient address" (ui w)) w) /\
  (wallet_connected c = true -> isAddress env (to c) = true ->
   amount_rejected env (amountEth c) = true ->
   final r = with_ui (with_status "Enter a valid amount" (ui w)) w) /\
  (to (ui (final r)) <> to (ui w) \/ amountEth (ui (final r)) <> amountEth (ui w) ->
   exists w3 value receipt,
     web3 c = Some w3 /\
     isAddress env (to c) = true /\
     amount_rejected env (amountEth c) = false /\
     toWei env (amountEth c) = Normal value /\
     w3 (requests w) (eth_sendTransaction (account c) (to c) value) = Normal receipt /\
     to (ui (final r)) = "" /\ amountEth (ui (final r)) = "").
Proof.
  intros r. assert (Hr : r = sendEth env c w) by reflexivity. clearbody r.
  unfold sendEth in Hr. unfold wallet_connected.
  destruct (web3 c) as [w3 |].
  2:{ subst r. simpl. repeat split; auto; try discriminate; intros [H | H]; congruence. }
  destruct (truthy (account c)).
  2:{ subst r. simpl. repeat split; auto; try discriminate; intros [H | H]; congruence. }
  unfold try_catch in Hr.
  destruct (isAddress env (to c)) eqn:Ea.
  2:{ subst r. simpl. repeat split; auto; try discriminate; intros [H | H]; congruence. }
  unfold bind at 1 in Hr. simpl negb in Hr. rewrite when_false in Hr.
  destruct (amount_rejected env (amountEth c)) eqn:Eamt.
  { subst r. simpl. repeat split; auto; try discriminate; intros [H | H]; congruence. }
  unfold bind at 1 in Hr. rewrite when_false in Hr.
  unfold setStatus at 1 in Hr. rewrite bind_modify_ui in Hr.
  unfold bind at 1, call at 1 in Hr.
  destruct (toWei env (amountEth c)) as [value | err] eqn:Ew.
  2:{ subst r. simpl. repeat split; auto; try discriminate; intros [H | H]; congruence. }
  unfold bind at 1, provider_request at 1 in Hr. simpl requests in Hr.
  destruct (w3 (requests w) (eth_sendTransaction (account c) (to c) value))
    as [receipt | err] eqn:Es.
  2:{ subst r. simpl. repeat split; auto; try discriminate; intros [H | H]; congruence. }
  unfold setStatus, setTo, setAmountEth in Hr. rewrite !bind_modify_ui in Hr.
  match type of Hr with
  | context [refreshBalance c ?w0] =>
      destruct (refreshBalance_frame c w0) as (Ho & _ & _ & _ & _ & Ht & Hm & _);
      destruct (refreshBalance c w0) as [w1 o]
  end.
  simpl in *. subst o. subst r. simpl.
  repeat split; auto; try discriminate.
  intros _. exists w3, value, receipt. repeat split; auto.
Qed.

(** ** refreshBalance *)

(** The first example of the balance contract: 1.234567 ETH is shown as the
    Number 1.234567. *)
Example round_down_exact_six_digits :
  round_down_6 (parseFloat (fromWei 1234567000000000000)) = parseFloat (Decimal 1234567 6).
Proof. vm_compute. reflexivity. Qed.

(** [parseFloat] of 1.234567999999999999 is the Number 5559999984763539 * 2^-52,
    which lies within half a unit in the last place of the decimal, on its
    upper side: the conversion has already rounded up. *)
Example parseFloat_rounds_to_nearest :
  parseFloat (fromWei 1234567999999999999) = S754_finite false 5559999984763539 (-52) /\
  (decimal_value (fromWei 1234567999999999999) < 5559999984763539 # 4503599627370496)%Q /\
  (5559999984763539 # 4503599627370496
     < decimal_value (fromWei 1234567999999999999) + (1 # 9007199254740992))%Q.
Proof. vm_compute. repeat split. Qed.

(** The product [ethValue * 1e6] is within half a unit in the last place of
    1234568 and is therefore rounded to that whole number, which
    [Math.floor] leaves as it is. *)
Example product_rounds_to_whole_number :
  mul64 (parseFloat (fromWei 1234567999999999999)) num_1e6 = of_Z64 1234568 /\
  (1234568 - (1 # 8589934592)
     < (5559999984763539 # 4503599627370496) * 1000000
     < 1234568 + (1 # 8589934592))%Q /\
  Math_floor (of_Z64 1234568) = of_Z64 1234568.
Proof. vm_compute. repeat split. Qed.

(** C3 (the code departs from it): for the balance 1234567999999999999 wei,
    that is 1.234567999999999999 ETH, refreshBalance stores the Number
    1.234568, which is more than the balance held and not the 1.234567 the
    contract requires. *)
Theorem refreshBalance_shows_more_than_held (c : AppState) (p : Provider) (w : World) :
  web3 c = Some p ->
  account c <> "" ->
  p (requests w) (eth_getBalance (account c)) = Normal 1234567999999999999%N ->
  let shown := balanceEth (ui (final (refreshBalance c w))) in
  shown = JNum (parseFloat (Decimal 1234568 6)) /\
  shown <> JNum (parseFloat (Decimal 1234567 6)) /\
  exists q,
    SF2Q (parseFloat (Decimal 1234568 6)) = Some q /\
    (decimal_value (fromWei 1234567999999999999) < q)%Q.
Proof.
  intros Hw3 Hacc Hbal shown. subst shown.
  unfold refreshBalance. rewrite Hw3.
  apply truthy_true in Hacc. rewrite Hacc.
  unfold try_catch, bind, provider_request. rewrite Hbal. simpl ui.
  assert (E : round_down_6 (parseFloat (fromWei 1234567999999999999)) =
              parseFloat (Decimal 1234568 6)) by (vm_compute; reflexivity).
  simpl balanceEth. rewrite E.
  split; [reflexivity |].
  split; [vm_compute; discriminate |].
  eexists. split; [vm_compute; reflexivity | vm_compute; reflexivity].
Qed.

(** ** The status auto-clear effect *)

Lemma setStatus_at_changed (now : Z) (msg : string) (t : Timed) :
  msg <> status (page t) ->
  setStatus_at now msg t =
    {| page := with_status msg (page t);
       timer := if truthy msg then Some (now + 7000)%Z else None |}.
Proof.
  intros Hne. unfold setStatus_at, status_effect. simpl.
  destruct (String.eqb_spec (status (page t)) msg) as [E | _]; [congruence | reflexivity].
Qed.

Lemma setStatus_at_same (now : Z) (t : Timed) :
  setStatus_at now (status (page t)) t = t.
Proof.
  unfold setStatus_at, status_effect. simpl. rewrite String.eqb_refl.
  destruct t as [[] ?]. reflexivity.
Qed.

Lemma advance_to_before (now due : Z) (s : AppState) :
  (now < due)%Z -> advance_to now {| page := s; timer := Some due |} = {| page := s; timer := Some due |}.
Proof.
  intros H. unfold advance_to. simpl.
  destruct (Z.leb_spec due now); [lia | reflexivity].
Qed.

Lemma advance_to_due (now due : Z) (s : AppState) :
  (due <= now)%Z -> status s <> "" ->
  advance_to now {| page := s; timer := Some due |} =
    {| page := with_status "" s; timer := None |}.
Proof.
  intros H Hs. unfold advance_to. simpl.
  destruct (Z.leb_spec due now); [| lia].
  rewrite setStatus_at_changed by (simpl; congruence). reflexivity.
Qed.

(** C8 (as the code has it): a status message that differs from the one
    shown starts a 7000 ms timer; untouched, the message stays until then and
    is cleared at T+7000 with every other state field as it was.  A second,
    different message at T+3000 replaces the timer: it is still shown at any
    time before T+10000 and is cleared then.  Setting the same message again
    at T+3000 does not restart the timer: the message is cleared at T+7000. *)
Theorem status_timer_restarts_only_on_change (t : Timed) (T : Z) (msg msg2 : string) :
  msg <> "" -> msg <> status (page t) ->
  let t1 := setStatus_at T msg t in
  status (page t1) = msg /\
  (forall now, (now < T + 7000)%Z -> advance_to now t1 = t1) /\
  page (advance_to (T + 7000) t1) = with_status "" (page t) /\
  (msg2 <> "" -> msg2 <> msg ->
   let t2 := setStatus_at (T + 3000) msg2 (advance_to (T + 3000) t1) in
   (forall now, (now < T + 10000)%Z -> status (page (advance_to now t2)) = msg2) /\
   page (advance_to (T + 10000) t2) = with_status "" (page t)) /\
  (let t2 := setStatus_at (T + 3000) msg (advance_to (T + 3000) t1) in
   t2 = t1 /\ status (page (advance_to (T + 7000) t2)) = "").
Proof.
  intros Hmsg Hne t1. subst t1.
  rewrite (setStatus_at_changed T msg t Hne).
  apply truthy_true in Hmsg as Ht. rewrite Ht.
  split; [reflexivity |].
  split; [intros now Hnow; now apply advance_to_before |].
  split.
  { rewrite advance_to_due by (simpl; auto; lia). reflexivity. }
  split.
  - intros Hmsg2 Hne2 t2. subst t2.
    rewrite advance_to_before by lia.
    rewrite setStatus_at_changed by (simpl; congruence).
    apply truthy_true in Hmsg2 as Ht2. rewrite Ht2. simpl page.
    replace (T + 3000 + 7000)%Z with (T + 10000)%Z by lia.
    split.
    + intros now Hnow. now rewrite advance_to_before.
    + rewrite advance_to_due by (simpl; auto; lia). reflexivity.
  - intros t2. subst t2.
    rewrite advance_to_before by lia.
    assert (E : setStatus_at (T + 3000) msg
                  {| page := with_status msg (page t); timer := Some (T + 7000)%Z |} =
                {| page := with_status msg (page t); timer := Some (T + 7000)%Z |})
      by apply (setStatus_at_same (T + 3000)
                  {| page := with_status msg (page t); timer := Some (T + 7000)%Z |}).
    rewrite E. split; [reflexivity |].
    rewrite advance_to_due by (simpl; auto; lia). reflexivity.
Qed.

(** * Concrete runs *)

(** ** Runs on which the code departs from the specification *)

(** C1: a provider that grants the account request with an empty list: the
    try block of connect completes without throwing and the status is
    "Connected", with an empty account. *)
Lemma connect_without_accounts_reports_connected :
  let env := sample_env (Some no_accounts) in
  no_accounts [] eth_requestAccounts = Normal [] /\
  outcome (connect_try env fresh_page) = Normal tt /\
  status (ui (final (connect env fresh_page))) = "Connected" /\
  account (ui (final (connect env fresh_page))) = "".
Proof. vm_compute. repeat split. Qed.

(** C2: the first switch is rejected with code 4902 and CHAIN_PARAMS has the
    target, but the add request is rejected: no retried switch is sent. *)
Lemma rejected_add_is_not_retried :
  let r := switchOrAddChain declines_add "0xaa36a7" fresh_page in
  let switch := wallet_switchEthereumChain "0xaa36a7" in
  (exists err, declines_add [] switch = Throw err /\ code err = Some 4902%Z) /\
  (exists params,
     CHAIN_PARAMS !! "0xaa36a7" = Some params /\
     sent_during fresh_page (final r) =
       [switch; wallet_addEthereumChain (OwnEntry params)]) /\
  count_switch (sent_during fresh_page (final r)) = 1%nat /\
  outcome r = Throw (JsError (Some 4001%Z) "User rejected the request.").
Proof.
  split; [eexists; split; reflexivity |].
  split; [eexists; split; vm_compute; reflexivity |].
  split; vm_compute; reflexivity.
Qed.

(** C4: the add-or-switch sequence succeeds and the status is "Switched to
    Sepolia Testnet", yet the stored chain and chainId are still "0x1". *)
Lemma successful_switch_does_not_store_chain :
  let env := sample_env (Some two_accounts) in
  let w := alice_page two_accounts in
  let r := handleChangeNetwork env "0xaa36a7" w in
  outcome (switchOrAddChain two_accounts "0xaa36a7" w) = Normal tt /\
  status (ui (final r)) = "Switched to Sepolia Testnet" /\
  localStorage (final r) !! KEYS.chain = Some "0x1" /\
  chainId (ui (final r)) = "0x1".
Proof. vm_compute. repeat split. Qed.

(** C7: with a malformed recipient and a rejected amount the error is the
    recipient's, not the amount's; and without a connection a malformed
    recipient is not reported at all. *)
Lemma earlier_checks_mask_later_ones :
  let env := sample_env (Some two_accounts) in
  let c := alice_form two_accounts "not-an-address" "-1" in
  let w := with_ui c (alice_page two_accounts) in
  let c0 :=
    {| web3 := None; account := ""; chainId := ""; balanceEth := JStr "0";
       to := "not-an-address"; amountEth := "0.01"; status := "";
       selectedChain := "0x1" |} in
  isAddress env "not-an-address" = false /\
  amount_rejected env "-1" = true /\
  status (ui (final (sendEth env c w))) = "Invalid recipient address" /\
  status (ui (final (sendEth env c0 (with_ui c0 fresh_page)))) = "Connect wallet first".
Proof. vm_compute. repeat split. Qed.

(** C8: the same message set at 0 ms and again at 3000 ms is still shown at
    6999 ms and is gone at 7000 ms. *)
Lemma repeated_status_expires_with_first_timer :
  let t0 := {| page := initial_state; timer := None |} in
  let t1 := setStatus_at 0 "Failed to fetch balance" t0 in
  let t2 := setStatus_at 3000 "Failed to fetch balance" (advance_to 3000 t1) in
  status (page (advance_to 6999 t2)) = "Failed to fetch balance" /\
  status (page (advance_to 7000 t2)) = "".
Proof. vm_compute. repeat split. Qed.

(** ** Runs on which the theorems apply *)

(** The specification's end-to-end example: accounts [alice; bob] on chain
    "0x1". *)
Lemma connect_adopts_first_or_empty_witness :
  let r := connect (sample_env (Some two_accounts)) fresh_page in
  account (ui (final r)) = alice /\
  chainId (ui (final r)) = "0x1" /\
  status (ui (final r)) = "Connected" /\
  localStorage (final r) !! KEYS.account = Some alice /\
  localStorage (final r) !! KEYS.chain = Some "0x1".
Proof.
  pose proof (connect_adopts_first_or_empty (sample_env (Some two_accounts))
                two_accounts [alice; bob] fresh_page eq_refl eq_refl) as H.
  cbv zeta in H.
  destruct H as (_ & _ & H).
  change (two_accounts (requests fresh_page ++ [eth_requestAccounts]) eth_chainId)
    with (@Normal string "0x1") in H.
  cbv iota beta in H.
  destruct H as (_ & Ha & Hc & _ & _ & Hs & _ & Hst).
  destruct Hst as [Hka Hkc];
    [intros m c; reflexivity | discriminate | discriminate |].
  repeat split; assumption.
Defined.

Lemma switchOrAddChain_bounded_retry_witness :
  count_add (sent_during fresh_page
               (final (switchOrAddChain learns_chain "0xaa36a7" fresh_page))) = 1%nat.
Proof.
  destruct (switchOrAddChain_bounded_retry learns_chain "0xaa36a7" fresh_page)
    as (_ & _ & _ & H).
  destruct (H eq_refl) as [_ Hiff].
  apply Hiff.
  eexists. eexists. split; [reflexivity |]. split; [reflexivity |].
  vm_compute. reflexivity.
Defined.

Lemma refreshBalance_shows_more_than_held_witness :
  balanceEth (ui (final (refreshBalance (alice_state two_accounts)
                                        (alice_page two_accounts)))) =
  JNum (parseFloat (Decimal 1234568 6)).
Proof.
  apply (refreshBalance_shows_more_than_held (alice_state two_accounts) two_accounts
           (alice_page two_accounts));
    [reflexivity | discriminate | reflexivity].
Defined.

Lemma handleChangeNetwork_leaves_chainId_witness :
  let env := sample_env (Some two_accounts) in
  let r := handleChangeNetwork env "0xaa36a7" (alice_page two_accounts) in
  let w' := final (onChainChanged env (alice_state two_accounts) "0xaa36a7" (final r)) in
  chainId (ui w') = "0xaa36a7" /\ localStorage w' !! KEYS.chain = Some "0xaa36a7".
Proof.
  intros env r w'.
  apply (handleChangeNetwork_leaves_chainId env "0xaa36a7" (alice_page two_accounts));
    [intros m c; reflexivity | discriminate].
Defined.

Lemma accounts_changed_empty_disconnects_witness :
  let r := onAccountsChanged (sample_env (Some two_accounts)) (alice_state two_accounts)
             [] (alice_page two_accounts) in
  localStorage (final r) !! KEYS.account = None /\
  localStorage (final r) !! KEYS.chain = None.
Proof.
  intros r.
  apply (accounts_changed_empty_disconnects (sample_env (Some two_accounts))
           (alice_state two_accounts) (alice_page two_accounts)).
  intros m key. reflexivity.
Defined.

(** A stored session for alice: adopted when the wallet still lists alice,
    removed when it lists no account. *)
Lemma auto_reconnect_revalidates_witness :
  let w := with_ui initial_state (alice_page two_accounts) in
  let adopted := final (autoReconnect (sample_env (Some two_accounts)) w) in
  let stale := final (autoReconnect (sample_env (Some no_accounts)) w) in
  (account (ui adopted) = alice /\ chainId (ui adopted) = "0x1") /\
  (ui stale = initial_state /\ localStorage stale !! KEYS.account = None).
Proof.
  intros w adopted stale. split.
  - destruct (auto_reconnect_revalidates (sample_env (Some two_accounts)) w)
      as (_ & _ & _ & H & _).
    destruct (H two_accounts [alice; bob] eq_refl) as [Hin _];
      [vm_compute; discriminate | reflexivity |].
    destruct Hin as (Ha & Hc & _); [vm_compute; left; reflexivity |].
    split; [exact Ha | exact Hc].
  - destruct (auto_reconnect_revalidates (sample_env (Some no_accounts)) w)
      as (_ & _ & _ & H & _).
    destruct (H no_accounts [] eq_refl) as [_ Hout];
      [vm_compute; discriminate | reflexivity |].
    destruct Hout as (Hu & Hs); [intros Hin; exact Hin |].
    destruct Hs as [Hka _]; [intros m key; reflexivity |].
    split; [exact Hu | exact Hka].
Defined.

Lemma sendEth_validates_in_order_witness :
  let env := sample_env (Some two_accounts) in
  let w := alice_page two_accounts in
  final (sendEth env (alice_form two_accounts "not-an-address" "0.01") w) =
    with_ui (with_status "Invalid recipient address" (ui w)) w /\
  final (sendEth env (alice_form two_accounts bob "-1") w) =
    with_ui (with_status "Enter a valid amount" (ui w)) w.
Proof.
  intros env w. split.
  - apply (sendEth_validates_in_order env
             (alice_form two_accounts "not-an-address" "0.01") w);
      reflexivity.
  - apply (sendEth_validates_in_order env (alice_form two_accounts bob "-1") w);
      reflexivity.
Defined.

Lemma status_timer_restarts_only_on_change_witness :
  let t0 := {| page := initial_state; timer := None |} in
  let t1 := setStatus_at 0 "Connected" t0 in
  let t2 := setStatus_at 3000 "Network changed" (advance_to 3000 t1) in
  status (page (advance_to 7000 t2)) = "Network changed" /\
  page (advance_to 10000 t2) = with_status "" initial_state.
Proof.
  intros t0 t1 t2.
  destruct (status_timer_restarts_only_on_change t0 0 "Connected" "Network changed")
    as (_ & _ & _ & H & _); [discriminate | discriminate |].
  destruct H as [Hshown Hgone]; [discriminate | discriminate |].
  split; [apply Hshown; reflexivity | exact Hgone].
Defined.

Lemma session_store_fail_soft_witness :
  outcome (loadSession (blocked_storage_env None) fresh_page) =
  Normal {| Session.account := ""; Session.chainId := "" |}.
Proof.
  apply (session_store_fail_soft (blocked_storage_env None) fresh_page alice "0x1").
  left. discriminate.
Defined.

(** A chain change seen by a render with an empty account: the new chain is
    stored next to the account stored earlier. *)
Lemma saveSession_keeps_key_of_empty_argument_witness :
  let w' := final (onChainChanged (sample_env None) initial_state "0xaa36a7"
                     (alice_page two_accounts)) in
  localStorage w' !! KEYS.chain = Some "0xaa36a7" /\
  localStorage w' !! KEYS.account = Some alice.
Proof.
  intros w'.
  destruct (saveSession_keeps_key_of_empty_argument (sample_env None)
              (alice_page two_accounts) "" "0xaa36a7") as (_ & _ & _ & H).
  destruct (H initial_state) as (Hc & Ha & _);
    [intros m c; reflexivity | reflexivity | discriminate |].
  split; [exact Hc |].
  exact (eq_trans Ha eq_refl).
Defined.

(** * Further properties of the code *)

(** ** src/libs/storage.js *)

Lemma persisted_when_storage_works (env : Env) (w : World) :
  storage_works env ->
  persisted env w =
    {| Session.account := opt_or_else (localStorage w !! KEYS.account) "";
       Session.chainId := opt_or_else (localStorage w !! KEYS.chain) "" |}.
Proof.
  intros Hok. unfold persisted, loadSession, try_catch, bind, localStorage_getItem,
    ret, outcome.
  simpl. rewrite !Hok. reflexivity.
Qed.

(** X1: the three session functions read and write the two keys
    connectedAccount and connectedChain only: every other key of localStorage
    keeps its value, whatever fails, and loadSession changes no key at all. *)
Theorem session_store_touches_only_its_keys
    (env : Env) (w : World) (acc cid key : string) :
  key <> KEYS.account -> key <> KEYS.chain ->
  localStorage (final (saveSession env acc cid w)) !! key = localStorage w !! key /\
  localStorage (final (clearSession env w)) !! key = localStorage w !! key /\
  localStorage (final (loadSession env w)) = localStorage w.
Proof.
  intros Ha Hc. split; [| split].
  - unfold saveSession, try_catch, bind, when, localStorage_setItem, console_error, final.
    destruct (truthy acc), (truthy cid); simpl; storage_cases env w;
      rewrite ?lookup_insert_ne by congruence; reflexivity.
  - unfold clearSession, try_catch, bind, localStorage_removeItem, console_error, final.
    simpl; storage_cases env w; rewrite ?lookup_delete_ne by congruence; reflexivity.
  - apply loadSession_frame.
Qed.

Lemma session_store_touches_only_its_keys_witness :
  let w := with_localStorage (<["theme" := "dark"]> (localStorage (alice_page two_accounts)))
             (alice_page two_accounts) in
  localStorage (final (clearSession (sample_env None) w)) !! "theme" = Some "dark".
Proof.
  intros w.
  destruct (session_store_touches_only_its_keys (sample_env None) w bob "0x1" "theme")
    as (_ & H & _); [discriminate | discriminate |].
  exact (eq_trans H eq_refl).
Defined.

(** X2: with a working storage, what loadSession returns after
    saveSession(account, chainId) is, field by field, the saved argument when
    it is non-empty and the value loadSession returned before otherwise. *)
Theorem saved_session_is_loaded_back (env : Env) (w : World) (acc cid : string) :
  storage_works env ->
  persisted env (final (saveSession env acc cid w)) =
    {| Session.account := if truthy acc then acc else Session.account (persisted env w);
       Session.chainId := if truthy cid then cid else Session.chainId (persisted env w) |}.
Proof.
  intros Hok. rewrite !persisted_when_storage_works by assumption.
  rewrite saveSession_storage by assumption.
  destruct (truthy acc) eqn:Ea, (truthy cid) eqn:Ec; simpl;
    rewrite ?lookup_insert_eq, ?lookup_insert_ne by discriminate;
    rewrite ?lookup_insert_eq; simpl; unfold or_else; rewrite ?Ea, ?Ec; reflexivity.
Qed.

Lemma saved_session_is_loaded_back_witness :
  persisted (sample_env None) (final (saveSession (sample_env None) bob "" (alice_page two_accounts))) =
  {| Session.account := bob; Session.chainId := "0x1" |}.
Proof.
  exact (eq_trans
           (saved_session_is_loaded_back (sample_env None) (alice_page two_accounts) bob ""
              (fun _ _ => eq_refl))
           eq_refl).
Defined.

(** X3: with a working storage, loadSession after clearSession returns the two
    empty strings, and a second clearSession changes nothing. *)
Theorem cleared_session_loads_empty (env : Env) (w : World) :
  storage_works env ->
  let w' := final (clearSession env w) in
  persisted env w' = {| Session.account := ""; Session.chainId := "" |} /\
  localStorage (final (clearSession env w')) = localStorage w'.
Proof.
  intros Hok w'. subst w'.
  rewrite persisted_when_storage_works by assumption.
  rewrite !clearSession_storage by (intros; apply Hok).
  split.
  - rewrite lookup_delete_ne by discriminate.
    rewrite !lookup_delete_eq. reflexivity.
  - apply map_eq. intros k.
    destruct (decide (k = KEYS.chain)) as [-> | Hc];
      [now rewrite !lookup_delete_eq |].
    rewrite !(lookup_delete_ne _ KEYS.chain) by congruence.
    destruct (decide (k = KEYS.account)) as [-> | Ha];
      [now rewrite !lookup_delete_eq |].
    repeat (rewrite lookup_delete_ne by congruence). reflexivity.
Qed.

Lemma cleared_session_loads_empty_witness :
  persisted (sample_env None) (final (clearSession (sample_env None) (alice_page two_accounts))) =
  {| Session.account := ""; Session.chainId := "" |}.
Proof.
  apply (cleared_session_loads_empty (sample_env None) (alice_page two_accounts)).
  intros m c. reflexivity.
Defined.

(** X4: both writes of saveSession sit in one try block: when the write of a
    non-empty account throws, the chain id is not written either; storage is
    left as it was and the error is logged once. *)
Theorem saveSession_stops_at_failed_account_write
    (env : Env) (w : World) (acc cid : string) (err : js_error) :
  acc <> "" ->
  ls_throws env (localStorage w) (SetItem KEYS.account acc) = Some err ->
  let w' := final (saveSession env acc cid w) in
  localStorage w' = localStorage w /\
  console w' = console w ++ [("Failed to save session:", err)].
Proof.
  intros Ha Hthrow w'. subst w'. apply truthy_true in Ha.
  unfold saveSession, try_catch, bind, when, localStorage_setItem, console_error, final.
  rewrite Ha. simpl. rewrite Hthrow. simpl. auto.
Qed.

Lemma saveSession_stops_at_failed_account_write_witness :
  localStorage (final (saveSession (full_storage_env None) alice "0xaa36a7" fresh_page))
    !! KEYS.chain = None.
Proof.
  destruct (saveSession_stops_at_failed_account_write (full_storage_env None) fresh_page
              alice "0xaa36a7" (JsError (Some 22%Z) "QuotaExceededError"))
    as [H _]; [discriminate | reflexivity |].
  exact (eq_trans (f_equal (fun m : gmap string string => m !! KEYS.chain) H) eq_refl).
Defined.

(** X5: clearSession removes the account key first: when removing the chain
    key then throws, the account is gone, the chain id stays stored, and the
    error is logged. *)
Theorem clearSession_can_leave_chain_behind (env : Env) (w : World) (err : js_error) :
  ls_throws env (localStorage w) (RemoveItem KEYS.account) = None ->
  ls_throws env (delete KEYS.account (localStorage w)) (RemoveItem KEYS.chain) = Some err ->
  let w' := final (clearSession env w) in
  localStorage w' !! KEYS.account = None /\
  localStorage w' !! KEYS.chain = localStorage w !! KEYS.chain /\
  console w' = console w ++ [("Failed to clear session:", err)].
Proof.
  intros H1 H2 w'. subst w'.
  unfold clearSession, try_catch, bind, localStorage_removeItem, console_error, final.
  rewrite H1. simpl. rewrite H2. simpl.
  rewrite lookup_delete_eq, lookup_delete_ne by discriminate. auto.
Qed.

Lemma clearSession_can_leave_chain_behind_witness :
  let w' := final (clearSession (sticky_chain_env None) (alice_page two_accounts)) in
  localStorage w' !! KEYS.account = None /\ localStorage w' !! KEYS.chain = Some "0x1".
Proof.
  intros w'.
  destruct (clearSession_can_leave_chain_behind (sticky_chain_env None)
              (alice_page two_accounts) (JsError None "remove failed"))
    as (Ha & Hc & _); [reflexivity | reflexivity |].
  split; [exact Ha | exact (eq_trans Hc eq_refl)].
Defined.

(** ** src/libs/network.js *)

Lemma CHAIN_PARAMS_lookup (key : string) (d : Descriptor.t) :
  CHAIN_PARAMS !! key = Some d ->
  (key = "0x1" \/ key = "0xaa36a7") /\
  Descriptor.chainId d = key /\
  Descriptor.chainName d <> "" /\
  Descriptor.decimals (Descriptor.nativeCurrency d) = 18%Z.
Proof.
  unfold CHAIN_PARAMS. intros H.
  destruct (decide (key = "0x1")) as [-> | H1].
  - rewrite lookup_insert_eq in H. inversion H; subst; simpl.
    repeat split; auto; discriminate.
  - rewrite lookup_insert_ne in H by congruence.
    destruct (decide (key = "0xaa36a7")) as [-> | H2].
    + rewrite lookup_insert_eq in H. inversion H; subst; simpl.
      repeat split; auto; discriminate.
    + rewrite lookup_insert_ne in H by congruence.
      rewrite lookup_empty in H. discriminate.
Qed.

(** X6: getChainName returns the registered chain name for an id that
    CHAIN_PARAMS holds and the id itself for every other string, so its
    result is empty only for the empty id. *)
Theorem getChainName_name_or_raw_id (hexId : string) :
  (forall d, CHAIN_PARAMS !! hexId = Some d -> getChainName hexId = Descriptor.chainName d) /\
  (CHAIN_PARAMS !! hexId = None -> getChainName hexId = hexId) /\
  (hexId <> "" -> getChainName hexId <> "").
Proof.
  unfold getChainName. split; [| split].
  - intros d H. rewrite H.
    destruct (CHAIN_PARAMS_lookup hexId d H) as (_ & _ & Hn & _).
    unfold or_else. apply truthy_true in Hn. now rewrite Hn.
  - intros H. now rewrite H.
  - intros Hne. destruct (CHAIN_PARAMS !! hexId) as [d |] eqn:E; [| assumption].
    destruct (CHAIN_PARAMS_lookup hexId d E) as (_ & _ & Hn & _).
    unfold or_else. apply truthy_true in Hn as Ht. now rewrite Ht.
Qed.

Lemma getChainName_name_or_raw_id_witness :
  getChainName "0xaa36a7" = "Sepolia Testnet" /\ getChainName "0x89" = "0x89".
Proof.
  destruct (getChainName_name_or_raw_id "0xaa36a7") as (Hknown & _ & _).
  destruct (getChainName_name_or_raw_id "0x89") as (_ & Hraw & _).
  split.
  - exact (eq_trans (Hknown _ eq_refl) eq_refl).
  - exact (Hraw eq_refl).
Defined.

(** X7: any wallet_addEthereumChain request that switchOrAddChain sends
    carries what the lookup CHAIN_PARAMS[target] yields.  For a target that is
    a key of the table this is the target's own entry, whose chainId field
    equals the target id.  For any other target an add request is sent only
    when the target names a member of Object.prototype (such as
    "constructor"), and it then carries that inherited member and no chain
    descriptor. *)
Theorem add_request_carries_lookup_of_target
    (p : Provider) (hexChainId : string) (w : World) (v : chain_params_value) :
  In (wallet_addEthereumChain v)
     (sent_during w (final (switchOrAddChain p hexChainId w))) ->
  CHAIN_PARAMS_at hexChainId = Some v /\
  match v with
  | OwnEntry d =>
      CHAIN_PARAMS !! hexChainId = Some d /\ Descriptor.chainId d = hexChainId
  | InheritedMember name =>
      name = hexChainId /\ CHAIN_PARAMS !! hexChainId = None /\
      names_Object_prototype_member hexChainId = true
  end.
Proof.
  intros Hin.
  assert (Hat : CHAIN_PARAMS_at hexChainId = Some v).
  { pose proof (switchOrAddChain_sent p hexChainId w) as H. cbv zeta in H.
    destruct (p (requests w) (wallet_switchEthereumChain hexChainId)) as [[] | err].
    { destruct H as [Hs _]. rewrite Hs in Hin. simpl in Hin.
      destruct Hin as [Hin | []]. discriminate. }
    destruct (is_4902 err), (CHAIN_PARAMS_at hexChainId) as [params |];
      try (destruct H as [Hs _]; rewrite Hs in Hin; simpl in Hin;
           destruct Hin as [Hin | []]; discriminate).
    destruct (p (requests w ++ [wallet_switchEthereumChain hexChainId])
                (wallet_addEthereumChain params)) as [[] | err'];
      destruct H as [Hs _]; rewrite Hs in Hin; simpl in Hin;
      intuition (try discriminate); congruence. }
  split; [assumption |].
  unfold CHAIN_PARAMS_at in Hat.
  destruct (CHAIN_PARAMS !! hexChainId) as [d |] eqn:E.
  - inversion Hat; subst. split; [reflexivity |].
    now destruct (CHAIN_PARAMS_lookup hexChainId d E) as (_ & Hid & _).
  - destruct (names_Object_prototype_member hexChainId) eqn:En; [| discriminate].
    inversion Hat; subst. auto.
Qed.

Lemma add_request_carries_lookup_of_target_witness :
  CHAIN_PARAMS !! "constructor" = None /\
  names_Object_prototype_member "constructor" = true.
Proof.
  assert (Hin : In (wallet_addEthereumChain (InheritedMember "constructor"))
                  (sent_during fresh_page
                     (final (switchOrAddChain declines_add "constructor" fresh_page))))
    by (vm_compute; right; left; reflexivity).
  destruct (add_request_carries_lookup_of_target declines_add "constructor" fresh_page
              (InheritedMember "constructor") Hin) as (_ & _ & H).
  exact H.
Defined.

(** X8: the result of switchOrAddChain is the provider's answer to the last
    request it sent: it returns normally only when that last request is a
    switch to the target that the provider resolved, and an error it throws is
    the very rejection of the last request. *)
Theorem switchOrAddChain_result_is_last_answer
    (p : Provider) (hexChainId : string) (w : World) :
  let r := switchOrAddChain p hexChainId w in
  let switch := wallet_switchEthereumChain hexChainId in
  exists before req,
    requests (final r) = before ++ [req] /\
    match outcome r with
    | Normal _ => req = switch /\ p before switch = Normal tt
    | Throw err => p before req = Throw err
    end.
Proof.
  intros r switch.
  destruct (switchOrAddChain_run p hexChainId w) as (_ & _ & _ & H).
  fold r switch in H. cbv zeta in H.
  destruct (p (requests w) switch) as [[] | err] eqn:E1.
  { destruct H as [Hr Ho]. exists (requests w), switch. rewrite Ho. auto. }
  destruct (is_4902 err) eqn:E2, (CHAIN_PARAMS_at hexChainId) as [params |] eqn:E3;
    try (destruct H as [Hr Ho]; exists (requests w), switch; rewrite Ho; now auto).
  destruct (p (requests w ++ [switch]) (wallet_addEthereumChain params))
    as [[] | err'] eqn:E4; destruct H as [Hr Ho].
  - exists (requests w ++ [switch; wallet_addEthereumChain params]), switch.
    split; [rewrite Hr, <- app_assoc; reflexivity |].
    rewrite Ho.
    destruct (p (requests w ++ [switch; wallet_addEthereumChain params]) switch)
      as [[] | err'']; auto.
  - exists (requests w ++ [switch]), (wallet_addEthereumChain params).
    split; [rewrite Hr, <- app_assoc; reflexivity |].
    rewrite Ho. assumption.
Qed.

(** ** connect *)

(** X9: connect never throws, and it is all or nothing: when its try block
    fails (no provider, or either request rejected) the only state change is
    the status, set to the error's message or to "Connect failed"; the
    account, chainId, Web3 instance and localStorage are as before, and no
    request other than eth_requestAccounts and eth_chainId has been sent. *)
Theorem failed_connect_changes_only_status (env : Env) (w : World) (err : js_error) :
  outcome (connect_try env w) = Throw err ->
  let r := connect env w in
  outcome r = Normal tt /\
  ui (final r) = with_status (or_else (message err) "Connect failed") (ui w) /\
  localStorage (final r) = localStorage w /\
  console (final r) = console w /\
  (sent_during w (final r) = [] \/
   sent_during w (final r) = [eth_requestAccounts] \/
   sent_during w (final r) = [eth_requestAccounts; eth_chainId]).
Proof.
  intros Hthrow r. subst r. unfold connect, try_catch.
  assert (Hrun : ui (final (connect_try env w)) = ui w /\
                 localStorage (final (connect_try env w)) = localStorage w /\
                 console (final (connect_try env w)) = console w /\
                 (sent_during w (final (connect_try env w)) = [] \/
                  sent_during w (final (connect_try env w)) = [eth_requestAccounts] \/
                  sent_during w (final (connect_try env w)) =
                    [eth_requestAccounts; eth_chainId])).
  { revert Hthrow. unfold connect_try, provider.
    destruct (ethereum env) as [p |].
    2:{ intros _. unfold sent_during. simpl. rewrite drop_all. auto 6. }
    unfold bind, provider_request.
    destruct (p (requests w) eth_requestAccounts) as [accs | e1].
    2:{ intros _. unfold sent_during. simpl. rewrite drop_app_length. auto 6. }
    simpl requests.
    destruct (p (requests w ++ [eth_requestAccounts]) eth_chainId) as [cid | e2].
    2:{ intros _. unfold sent_during. simpl.
        rewrite <- app_assoc, drop_app_length. auto 6. }
    simpl.
    match goal with
    | |- context [saveSession env ?a cid ?w0] =>
        destruct (saveSession_run env a cid w0) as (w2 & E & _)
    end.
    rewrite E. simpl. discriminate. }
  destruct (connect_try env w) as [w1 o]. simpl in Hthrow, Hrun. subst o.
  destruct Hrun as (Hu & Hl & Hc & Hs).
  unfold sent_during in *. simpl. rewrite Hu. auto.
Qed.

Lemma failed_connect_changes_only_status_witness :
  let r := connect (sample_env (Some declines_connect)) fresh_page in
  ui (final r) = with_status "User rejected the request." initial_state /\
  localStorage (final r) = ∅.
Proof.
  intros r.
  destruct (failed_connect_changes_only_status (sample_env (Some declines_connect))
              fresh_page (JsError (Some 4001%Z) "User rejected the request.") eq_refl)
    as (_ & Hu & Hl & _).
  split; [exact Hu | exact Hl].
Defined.

(** ** refreshBalance *)

(** X10: refreshBalance is a no-op for a render without Web3 instance or
    account.  Otherwise it sends exactly one request, eth_getBalance for the
    account of that render; on success it replaces the balance and leaves the
    status alone, on failure it sets status "Failed to fetch balance" and
    leaves the balance alone; nothing else changes. *)
Theorem refreshBalance_changes_balance_or_status (c : AppState) (w : World) :
  let r := refreshBalance c w in
  (wallet_connected c = false -> final r = w) /\
  (forall w3, web3 c = Some w3 -> account c <> "" ->
     requests (final r) = requests w ++ [eth_getBalance (account c)] /\
     localStorage (final r) = localStorage w /\
     match w3 (requests w) (eth_getBalance (account c)) with
     | Normal wei =>
         ui (final r) = ui (final (setBalanceEth (JNum (round_down_6 (parseFloat (fromWei wei)))) w))
     | Throw _ => ui (final r) = with_status "Failed to fetch balance" (ui w)
     end).
Proof.
  intros r. subst r. split.
  - intros H. now rewrite refreshBalance_disconnected.
  - intros w3 Hw Ha. unfold refreshBalance. rewrite Hw.
    apply truthy_true in Ha. rewrite Ha.
    unfold try_catch, bind, provider_request. simpl.
    destruct (w3 (requests w) (eth_getBalance (account c))); simpl; auto.
Qed.

Lemma refreshBalance_changes_balance_or_status_witness :
  let r := refreshBalance (alice_state node_down) (alice_page node_down) in
  status (ui (final r)) = "Failed to fetch balance" /\
  balanceEth (ui (final r)) = JStr "0".
Proof.
  intros r.
  destruct (refreshBalance_changes_balance_or_status (alice_state node_down)
              (alice_page node_down)) as [_ H].
  destruct (H node_down eq_refl) as (_ & _ & Hu); [discriminate |].
  split; [exact (f_equal status Hu) | exact (f_equal balanceEth Hu)].
Defined.

(** ** Provider events *)

(** X11: the accounts-changed handler looks at the first list element only.
    When it is a non-empty address the handler adopts it (without comparing
    it with the current account), sets status "Account changed", stores it
    through saveSession together with the chain id of the render, and neither
    touches the balance nor sends a request; when it is the empty string the
    handler behaves as for the empty list. *)
Theorem accounts_changed_adopts_first
    (env : Env) (c : AppState) (w : World) (a : string) (rest : list string) :
  (a <> "" ->
   let r := onAccountsChanged env c (a :: rest) w in
   account (ui (final r)) = a /\
   status (ui (final r)) = "Account changed" /\
   balanceEth (ui (final r)) = balanceEth (ui w) /\
   chainId (ui (final r)) = chainId (ui w) /\
   requests (final r) = requests w /\
   (storage_works env ->
    localStorage (final r) =
      (if truthy (chainId c) then <[KEYS.chain := chainId c]> else id)
        (<[KEYS.account := a]> (localStorage w)))) /\
  onAccountsChanged env c ("" :: rest) w = onAccountsChanged env c [] w.
Proof.
  split; [| reflexivity].
  intros Ha r. subst r. apply truthy_true in Ha as Ht.
  assert (Hf : opt_or_else (head (a :: rest)) "" = a)
    by (simpl; unfold or_else; now rewrite Ht).
  unfold onAccountsChanged. cbv zeta. rewrite Hf, Ht.
  run_setters.
  match goal with
  | |- context [bind (saveSession env a ?cc) _ ?w0] =>
      pose proof (saveSession_storage env a cc w0) as Hs;
      destruct (saveSession_run env a cc w0) as (w2 & E & Hu & Hr)
  end.
  rewrite (bind_normal _ _ _ _ _ E). rewrite E in Hs. simpl in Hs.
  unfold modify_ui. simpl. rewrite Hu, Hr. simpl.
  repeat split; auto.
  intros Hok. rewrite (Hs Hok), Ht. reflexivity.
Qed.

Lemma accounts_changed_adopts_first_witness :
  let r := onAccountsChanged (sample_env (Some two_accounts)) (alice_state two_accounts)
             [bob; alice] (alice_page two_accounts) in
  account (ui (final r)) = bob /\ status (ui (final r)) = "Account changed".
Proof.
  intros r.
  destruct (accounts_changed_adopts_first (sample_env (Some two_accounts))
              (alice_state two_accounts) (alice_page two_accounts) bob [alice]) as [H _].
  destruct H as (Ha & Hs & _); [discriminate |].
  split; [exact Ha | exact Hs].
Defined.

(** X12: the chain-changed handler adopts the new chain id as chainId and as
    the selected chain and never throws.  For a connected render it then sends
    exactly one eth_getBalance request for that render's account; when the
    request is rejected the status ends as "Failed to fetch balance", which
    replaces "Network changed". *)
Theorem chain_changed_adopts_then_refreshes
    (env : Env) (c : AppState) (cid : string) (w : World) :
  let r := onChainChanged env c cid w in
  outcome r = Normal tt /\
  chainId (ui (final r)) = cid /\
  selectedChain (ui (final r)) = cid /\
  account (ui (final r)) = account (ui w) /\
  (wallet_connected c = false ->
   requests (final r) = requests w /\ status (ui (final r)) = "Network changed") /\
  (forall w3, web3 c = Some w3 -> account c <> "" ->
     requests (final r) = requests w ++ [eth_getBalance (account c)] /\
     match w3 (requests w) (eth_getBalance (account c)) with
     | Normal wei =>
         status (ui (final r)) = "Network changed" /\
         balanceEth (ui (final r)) = JNum (round_down_6 (parseFloat (fromWei wei)))
     | Throw _ =>
         status (ui (final r)) = "Failed to fetch balance" /\
         balanceEth (ui (final r)) = balanceEth (ui w)
     end).
Proof.
  intros r. assert (Hr : r = onChainChanged env c cid w) by reflexivity. clearbody r.
  unfold onChainChanged in Hr. revert Hr. run_setters.
  match goal with
  | |- context [bind (saveSession env ?a cid) _ ?w0] =>
      destruct (saveSession_run env a cid w0) as (w2 & E & Hu & Hq)
  end.
  rewrite (bind_normal _ _ _ _ _ E). run_setters. simpl in Hu, Hq.
  unfold refreshBalance, wallet_connected.
  destruct (web3 c) as [w3 |].
  2:{ intros ->. simpl. rewrite Hu, Hq. simpl. clear E.
      do 5 (split; [auto |]). intros w3 Hw. discriminate. }
  destruct (truthy (account c)) eqn:Et.
  2:{ intros ->. simpl. rewrite Hu, Hq. simpl. clear E. apply truthy_false in Et.
      do 5 (split; [auto |]). intros w3' _ Hne. congruence. }
  unfold try_catch, bind, provider_request. simpl. rewrite Hq. clear E.
  intros ->.
  destruct (w3 (requests w) (eth_getBalance (account c))) as [wei | e] eqn:Eb;
    simpl; rewrite Hu; simpl;
    (do 4 (split; [reflexivity |])); (split; [intros; discriminate |]);
    intros w3' Hw _; inversion Hw; subst; rewrite Eb; auto.
Qed.

Lemma chain_changed_adopts_then_refreshes_witness :
  let r := onChainChanged (sample_env (Some node_down)) (alice_state node_down)
             "0xaa36a7" (alice_page node_down) in
  chainId (ui (final r)) = "0xaa36a7" /\
  status (ui (final r)) = "Failed to fetch balance".
Proof.
  intros r.
  destruct (chain_changed_adopts_then_refreshes (sample_env (Some node_down))
              (alice_state node_down) "0xaa36a7" (alice_page node_down))
    as (_ & Hc & _ & _ & _ & H).
  destruct (H node_down eq_refl) as (_ & Hs & _); [discriminate |].
  split; [exact Hc | exact Hs].
Defined.

(** ** sendEth *)

(** The run of sendEth once the connection, recipient and amount checks have
    passed, up to the answer of the provider. *)
Lemma sendEth_after_checks (env : Env) (c : AppState) (w : World) (w3 : Provider) :
  web3 c = Some w3 -> account c <> "" ->
  isAddress env (to c) = true -> amount_rejected env (amountEth c) = false ->
  sendEth env c w =
    try_catch
      (value ← call (toWei env (amountEth c));
       receipt ← provider_request w3 (eth_sendTransaction (account c) (to c) value);
       setStatus ("Sent! Tx: " ++ opt_or_else receipt "(pending)");;
       setTo "";;
       setAmountEth "";;
       refreshBalance c)
      (fun err => setStatus (or_else (message err) "Send failed"))
      (with_ui (with_status "Sending…" (ui w)) w).
Proof.
  intros Hw Ha Haddr Hamt. unfold sendEth. rewrite Hw.
  apply truthy_true in Ha. rewrite Ha.
  unfold try_catch. rewrite Haddr, Hamt. reflexivity.
Qed.



(** X14: once the checks have passed, a failure of toWei leaves everything
    but the status as it was and nothing is asked of the provider; a rejected
    transaction (web3.eth.sendTransaction rejects) likewise changes only the
    status.  Either way the status becomes the error's message (or
    "Send failed") and the form fields, the balance and localStorage stay as
    they were. *)
Theorem sendEth_failure_keeps_the_form
    (env : Env) (c : AppState) (w : World) (w3 : Provider) (err : js_error) :
  web3 c = Some w3 -> account c <> "" ->
  isAddress env (to c) = true -> amount_rejected env (amountEth c) = false ->
  let r := sendEth env c w in
  (toWei env (amountEth c) = Throw err ->
   final r = with_ui (with_status (or_else (message err) "Send failed") (ui w)) w) /\
  (forall value,
     toWei env (amountEth c) = Normal value ->
     w3 (requests w) (eth_sendTransaction (account c) (to c) value) = Throw err ->
     outcome r = Normal tt /\
     ui (final r) = with_status (or_else (message err) "Send failed") (ui w) /\
     localStorage (final r) = localStorage w /\
     console (final r) = console w).
Proof.
  intros Hw Ha Haddr Hamt r. subst r.
  rewrite (sendEth_after_checks env c w w3 Hw Ha Haddr Hamt).
  split.
  - intros Hwei. unfold try_catch, bind, call. rewrite Hwei. reflexivity.
  - intros value Hwei Htx. unfold try_catch, bind, call, provider_request.
    rewrite Hwei. simpl. rewrite Htx. simpl. auto.
Qed.

Lemma sendEth_failure_keeps_the_form_witness :
  let env := sample_env (Some node_down) in
  let c := alice_form node_down bob "0.01" in
  let r := sendEth env c (with_ui c (alice_page node_down)) in
  ui (final r) = with_status "Internal JSON-RPC error." c.
Proof.
  intros env c r.
  assert (Hne : account c <> "") by discriminate.
  destruct (sendEth_failure_keeps_the_form env c (with_ui c (alice_page node_down))
              node_down (JsError (Some (-32603)%Z) "Internal JSON-RPC error.")
              eq_refl Hne eq_refl eq_refl)
    as [_ H].
  destruct (H "10000000000000000" eq_refl eq_refl) as (_ & Hu & _).
  exact Hu.
Defined.

(** ** Sessions across a page reload *)

Lemma autoReconnect_without_saved_account (env : Env) (w : World) :
  Session.account (persisted env w) = "" ->
  ui (final (autoReconnect env w)) = ui w /\
  localStorage (final (autoReconnect env w)) = localStorage w /\
  requests (final (autoReconnect env w)) = requests w.
Proof.
  intros Hs. unfold autoReconnect.
  destruct (loadSession_run env w) as (w0 & EL & Hl0 & Hu0 & Hr0).
  rewrite (bind_normal _ _ _ _ _ EL). cbv zeta. rewrite Hs. simpl.
  destruct (provider env); simpl; auto.
Qed.

Lemma autoReconnect_with_saved_account
    (env : Env) (w : World) (p : Provider) (accounts : list string) :
  ethereum env = Some p ->
  Session.account (persisted env w) <> "" ->
  p (requests w) eth_accounts = Normal accounts ->
  let saved := persisted env w in
  let w' := final (autoReconnect env w) in
  if includes accounts (Session.account saved) then
    ui w' =
      {| web3 := Some p; account := Session.account saved;
         chainId := Session.chainId saved; balanceEth := balanceEth (ui w);
         to := to (ui w); amountEth := amountEth (ui w); status := status (ui w);
         selectedChain := or_else (Session.chainId saved) "0x1" |} /\
    localStorage w' = localStorage w
  else
    ui w' = ui w /\ localStorage w' = localStorage (final (clearSession env w)).
Proof.
  intros Hp Hs Hacc saved w'. subst w'. unfold autoReconnect.
  destruct (loadSession_run env w) as (w0 & EL & Hl0 & Hu0 & Hr0).
  rewrite (bind_normal _ _ _ _ _ EL). fold saved. cbv zeta.
  unfold provider. rewrite Hp.
  apply truthy_true in Hs. fold saved in Hs. rewrite Hs.
  unfold then_, try_catch, bind, provider_request. rewrite Hr0, Hacc.
  destruct (includes accounts (Session.account saved)).
  - simpl. rewrite Hu0, or_else_empty_r. auto.
  - match goal with
    | |- context [clearSession env ?wc] =>
        destruct (clearSession_run env wc) as (w2 & E & Hu & Hr);
        assert (Hsame : localStorage (final (clearSession env wc)) =
                        localStorage (final (clearSession env w)))
    end.
    { unfold clearSession, try_catch, bind, localStorage_removeItem, console_error, final.
      simpl. rewrite Hl0. storage_cases env w; reflexivity. }
    rewrite E in *. simpl in *. rewrite Hu, Hu0. auto.
Qed.

(** X15: a session written by a successful connect is revalidated after a
    page reload.  With a working storage, a non-empty first address and chain
    id, the startup effect run on the reloaded page adopts that same account
    and chain id when the provider still lists the account, and otherwise
    leaves the fresh state untouched and empties the stored session. *)
Theorem session_survives_reload
    (env : Env) (p : Provider) (a : string) (rest : list string) (cid : string)
    (accounts : list string) (w : World) :
  storage_works env -> ethereum env = Some p -> a <> "" -> cid <> "" ->
  p (requests w) eth_requestAccounts = Normal (a :: rest) ->
  p (requests w ++ [eth_requestAccounts]) eth_chainId = Normal cid ->
  p (requests w ++ [eth_requestAccounts; eth_chainId]) eth_accounts = Normal accounts ->
  let w1 := final (connect env w) in
  let w2 := final (autoReconnect env (reload w1)) in
  (In a accounts ->
   account (ui w2) = a /\ chainId (ui w2) = cid /\ selectedChain (ui w2) = cid /\
   web3 (ui w2) = Some p) /\
  (~ In a accounts ->
   ui w2 = initial_state /\
   persisted env w2 = {| Session.account := ""; Session.chainId := "" |}).
Proof.
  intros Hok Hp Ha Hc Haccs Hcid Hlist w1 w2.
  destruct (connect_try_run env p (a :: rest) cid w Hp Haccs Hcid) as (v & E & Hl & Hr & Hu).
  assert (Hf : opt_or_else (head (a :: rest)) "" = a).
  { simpl. unfold or_else. apply truthy_true in Ha. now rewrite Ha. }
  rewrite Hf in Hl.
  assert (Hw1 : localStorage w1 = <[KEYS.chain := cid]> (<[KEYS.account := a]> (localStorage w))
                /\ requests w1 = requests w ++ [eth_requestAccounts; eth_chainId]).
  { subst w1. unfold connect, try_catch. rewrite E. simpl.
    rewrite Hl, Hr, saveSession_storage by assumption.
    apply truthy_true in Ha, Hc. rewrite Ha, Hc. auto. }
  destruct Hw1 as [Hs1 Hr1].
  assert (Hsaved : persisted env (reload w1) = {| Session.account := a; Session.chainId := cid |}).
  { rewrite persisted_when_storage_works by assumption. unfold reload. simpl.
    rewrite Hs1, lookup_insert_eq, lookup_insert_ne, lookup_insert_eq by discriminate.
    simpl. unfold or_else. apply truthy_true in Ha, Hc. now rewrite Ha, Hc. }
  pose proof (autoReconnect_with_saved_account env (reload w1) p accounts Hp) as H.
  rewrite Hsaved in H. simpl in H. fold w2 in H.
  specialize (H Ha). rewrite Hr1 in H. specialize (H Hlist).
  destruct (includes accounts a) eqn:Ei.
  - apply includes_In in Ei. destruct H as [Hui _].
    split; [| intros Hn; contradiction].
    intros _. rewrite Hui. simpl. unfold or_else.
    apply truthy_true in Hc. rewrite Hc. auto.
  - assert (Hn : ~ In a accounts) by (intros Hin; apply includes_In in Hin; congruence).
    destruct H as [Hui Hls].
    split; [intros Hin; contradiction |].
    intros _. split; [exact Hui |].
    rewrite persisted_when_storage_works by assumption.
    rewrite Hls, clearSession_storage by (intros; apply Hok).
    rewrite lookup_delete_ne by discriminate. rewrite !lookup_delete_eq. reflexivity.
Qed.

Lemma session_survives_reload_witness :
  let env := sample_env (Some two_accounts) in
  let w2 := final (autoReconnect env (reload (final (connect env fresh_page)))) in
  account (ui w2) = alice /\ chainId (ui w2) = "0x1".
Proof.
  intros env w2.
  assert (Ha : alice <> "") by discriminate.
  assert (Hc : "0x1" <> "") by discriminate.
  destruct (session_survives_reload env two_accounts alice [bob] "0x1" [alice; bob]
              fresh_page (fun _ _ => eq_refl) eq_refl Ha Hc eq_refl eq_refl eq_refl)
    as [H _].
  destruct H as (H1 & H2 & _); [left; reflexivity |].
  split; [exact H1 | exact H2].
Defined.

(** X16: a disconnect is remembered across a page reload.  With a working
    storage, after the accounts-changed handler has run with an empty list,
    the startup effect on the reloaded page sends no request and leaves the
    fresh state as it is. *)
Theorem disconnect_survives_reload (env : Env) (c : AppState) (w : World) :
  storage_works env ->
  let w1 := final (onAccountsChanged env c [] w) in
  let w2 := final (autoReconnect env (reload w1)) in
  ui w2 = initial_state /\
  requests w2 = requests w /\
  localStorage w2 !! KEYS.account = None /\
  localStorage w2 !! KEYS.chain = None.
Proof.
  intros Hok w1 w2.
  assert (Hw1 : localStorage w1 = delete KEYS.chain (delete KEYS.account (localStorage w))
                /\ requests w1 = requests w).
  { subst w1. unfold onAccountsChanged. simpl. run_setters.
    match goal with
    | |- context [bind (clearSession env) _ ?w0] =>
        pose proof (clearSession_storage env w0) as Hs;
        destruct (clearSession_run env w0) as (v & E & Hu & Hr)
    end.
    rewrite (bind_normal _ _ _ _ _ E). rewrite E in Hs. simpl in Hs.
    run_setters. unfold modify_ui. simpl.
    rewrite Hs by (intros; apply Hok). auto. }
  destruct Hw1 as [Hs1 Hr1].
  assert (Hsaved : Session.account (persisted env (reload w1)) = "").
  { rewrite persisted_when_storage_works by assumption. unfold reload. simpl.
    rewrite Hs1, lookup_delete_ne, lookup_delete_eq by discriminate. reflexivity. }
  destruct (autoReconnect_without_saved_account env (reload w1) Hsaved) as (Hu & Hl & Hr).
  fold w2 in Hu, Hl, Hr. unfold reload in Hu, Hl, Hr. simpl in Hu, Hl, Hr.
  rewrite Hu, Hl, Hr, Hs1, Hr1.
  rewrite lookup_delete_ne by discriminate. rewrite !lookup_delete_eq. auto.
Qed.

Lemma disconnect_survives_reload_witness :
  let env := sample_env (Some two_accounts) in
  let w1 := final (onAccountsChanged env (alice_state two_accounts) []
                     (alice_page two_accounts)) in
  requests (final (autoReconnect env (reload w1))) = [].
Proof.
  intros env w1.
  destruct (disconnect_survives_reload env (alice_state two_accounts)
              (alice_page two_accounts) (fun _ _ => eq_refl)) as (_ & Hr & _).
  exact Hr.
Defined.

(** ** What the handlers never do *)

Ltac unfold_handlers :=
  unfold connect, connect_try, autoReconnect, onAccountsChanged, onChainChanged,
    handleChangeNetwork, sendEth, refreshBalance, switchOrAddChain, provider,
    saveSession, loadSession, clearSession,
    localStorage_setItem, localStorage_getItem, localStorage_removeItem,
    then_, try_catch, bind, when, throw, call, ret, provider_request, console_error,
    setWeb3, setAccount, setChainId, setBalanceEth, setTo, setAmountEth, setStatus,
    setSelectedChain, modify_ui, final, outcome.

Ltac split_cases :=
  repeat (simpl;
          match goal with
          | |- context [match ?x with _ => _ end] =>
              lazymatch x with
              | context [match _ with _ => _ end] => fail
              | _ => destruct x eqn:?
              end
          end);
  simpl.

Ltac sent_nothing_else :=
  unfold sent_during; simpl;
  rewrite <- ?app_assoc; rewrite ?drop_app_length, ?drop_all; simpl;
  intuition discriminate.

(** X17: account access is requested by connect only: none of the other
    handlers and effects (the accounts-changed and chain-changed handlers, the
    startup effect, the network switch, refreshBalance and sendEth) ever sends
    eth_requestAccounts, whatever the provider and the storage answer. *)
Theorem only_connect_requests_account_access
    (env : Env) (c : AppState) (w : World) (accs : list string) (cid hexId : string) :
  ~ In eth_requestAccounts (sent_during w (final (onAccountsChanged env c accs w))) /\
  ~ In eth_requestAccounts (sent_during w (final (onChainChanged env c cid w))) /\
  ~ In eth_requestAccounts (sent_during w (final (autoReconnect env w))) /\
  ~ In eth_requestAccounts (sent_during w (final (handleChangeNetwork env hexId w))) /\
  ~ In eth_requestAccounts (sent_during w (final (refreshBalance c w))) /\
  ~ In eth_requestAccounts (sent_during w (final (sendEth env c w))).
Proof.
  repeat split.
  - unfold_handlers. split_cases; sent_nothing_else.
  - unfold_handlers. split_cases; sent_nothing_else.
  - unfold_handlers. split_cases; sent_nothing_else.
  - unfold_handlers. split_cases; sent_nothing_else.
  - unfold_handlers. split_cases; sent_nothing_else.
  - unfold_handlers. split_cases; sent_nothing_else.
Qed.

(** ** Invariants *)

(** X18: the Web3 instance kept in the state, when there is one, always wraps
    the injected provider: every handler and effect of the component keeps
    this, since only connect and the startup effect set it, to that
    provider. *)
Theorem web3_instance_wraps_the_provider
    (env : Env) (c : AppState) (w : World) (accs : list string) (cid hexId : string) :
  web3_wraps_provider env (ui w) ->
  web3_wraps_provider env (ui (final (connect env w))) /\
  web3_wraps_provider env (ui (final (autoReconnect env w))) /\
  web3_wraps_provider env (ui (final (onAccountsChanged env c accs w))) /\
  web3_wraps_provider env (ui (final (onChainChanged env c cid w))) /\
  web3_wraps_provider env (ui (final (handleChangeNetwork env hexId w))) /\
  web3_wraps_provider env (ui (final (refreshBalance c w))) /\
  web3_wraps_provider env (ui (final (sendEth env c w))).
Proof.
  unfold web3_wraps_provider. intros Hinv.
  repeat split.
  - unfold_handlers. split_cases; auto.
  - unfold_handlers. split_cases; auto.
  - unfold_handlers. split_cases; auto.
  - unfold_handlers. split_cases; auto.
  - unfold_handlers. split_cases; auto.
  - unfold_handlers. split_cases; auto.
  - unfold_handlers. split_cases; auto.
Qed.

Lemma web3_instance_wraps_the_provider_witness :
  let env := sample_env (Some two_accounts) in
  web3 (ui (final (connect env fresh_page))) = None \/
  web3 (ui (final (connect env fresh_page))) = Some two_accounts.
Proof.
  intros env.
  apply (web3_instance_wraps_the_provider env initial_state fresh_page [] "" "").
  left. reflexivity.
Defined.

(** X19: a timeout is pending exactly while a status message is shown.  This
    holds for the initial page and is kept by every setStatus and by the
    passing of time; so a message that is shown always has a time at which it
    disappears. *)
Theorem status_timer_is_pending_while_shown (now : Z) (msg : string) (t : Timed) :
  timer_consistent {| page := initial_state; timer := None |} /\
  (timer_consistent t ->
   timer_consistent (setStatus_at now msg t) /\
   timer_consistent (advance_to now t) /\
   (status (page t) <> "" ->
    exists due, timer t = Some due /\ status (page (advance_to due t)) = "")).
Proof.
  unfold timer_consistent. split; [simpl; tauto |].
  intros Hinv. split; [| split].
  - unfold setStatus_at, status_effect. simpl.
    destruct (String.eqb_spec (status (page t)) msg) as [E | E].
    + subst msg. simpl. destruct t as [[] ?]; simpl in *. exact Hinv.
    + simpl. destruct msg; simpl; split; congruence.
  - unfold advance_to. destruct (timer t) as [due |] eqn:Et; [| now rewrite Et].
    destruct (due <=? now)%Z; [| now rewrite Et].
    unfold setStatus_at, status_effect. simpl.
    destruct (String.eqb_spec (status (page t)) "") as [E | E]; simpl;
      split; reflexivity.
  - intros Hs. destruct (timer t) as [due |] eqn:Et.
    2:{ destruct Hinv as [H _]. now specialize (H eq_refl). }
    exists due. split; [reflexivity |].
    unfold advance_to. rewrite Et, Z.leb_refl.
    unfold setStatus_at, status_effect. simpl.
    destruct (String.eqb_spec (status (page t)) ""); [contradiction | reflexivity].
Qed.

Lemma status_timer_is_pending_while_shown_witness :
  let t := setStatus_at 0 "Connected" {| page := initial_state; timer := None |} in
  exists due, timer t = Some due /\ status (page (advance_to due t)) = "".
Proof.
  intros t.
  destruct (status_timer_is_pending_while_shown 0 "" t) as [_ H].
  destruct H as (_ & _ & H); [split; discriminate |].
  apply H. discriminate.
Defined.

(** X20: an account pushed by the wallet before connect has run does not
    connect the page: the account is adopted, but without a Web3 instance a
    send from the next render is refused with "Connect wallet first" and a
    balance refresh does nothing; neither sends a request. *)
Theorem pushed_account_does_not_connect
    (env : Env) (c : AppState) (w : World) (a : string) (rest : list string) :
  web3 (ui w) = None -> a <> "" ->
  let w1 := final (onAccountsChanged env c (a :: rest) w) in
  account (ui w1) = a /\
  final (sendEth env (ui w1) w1) = with_ui (with_status "Connect wallet first" (ui w1)) w1 /\
  final (refreshBalance (ui w1) w1) = w1.
Proof.
  intros Hw Ha w1.
  assert (Hf : opt_or_else (head (a :: rest)) "" = a).
  { simpl. unfold or_else. apply truthy_true in Ha. now rewrite Ha. }
  assert (H1 : web3 (ui w1) = None /\ account (ui w1) = a).
  { subst w1. unfold onAccountsChanged. cbv zeta. rewrite Hf.
    apply truthy_true in Ha. rewrite Ha. run_setters.
    match goal with
    | |- context [bind (saveSession env a ?cc) _ ?w0] =>
        destruct (saveSession_run env a cc w0) as (w2 & E & Hu & Hr)
    end.
    rewrite (bind_normal _ _ _ _ _ E). unfold modify_ui. simpl. rewrite Hu. simpl. auto. }
  destruct H1 as [Hweb Hacc].
  split; [assumption |]. split.
  - unfold sendEth. now rewrite Hweb.
  - rewrite refreshBalance_disconnected; [reflexivity |].
    unfold wallet_connected. now rewrite Hweb.
Qed.

Lemma pushed_account_does_not_connect_witness :
  let env := sample_env (Some two_accounts) in
  let w1 := final (onAccountsChanged env initial_state [alice] fresh_page) in
  status (ui (final (sendEth env (ui w1) w1))) = "Connect wallet first".
Proof.
  intros env w1.
  assert (Ha : alice <> "") by discriminate.
  destruct (pushed_account_does_not_connect env initial_state fresh_page alice []
              eq_refl Ha) as (_ & Hs & _).
  exact (f_equal (fun v => status (ui v)) Hs).
Defined.

(** X21: when the provider rejects the eth_accounts query of the startup
    effect, nothing handles the rejection: the state stays as it was and the
    stored session is neither adopted nor removed, so it is tried again at the
    next load. *)
Theorem rejected_accounts_query_keeps_session
    (env : Env) (w : World) (p : Provider) (err : js_error) :
  ethereum env = Some p ->
  Session.account (persisted env w) <> "" ->
  p (requests w) eth_accounts = Throw err ->
  let r := autoReconnect env w in
  outcome r = Normal tt /\
  ui (final r) = ui w /\
  localStorage (final r) = localStorage w /\
  requests (final r) = requests w ++ [eth_accounts].
Proof.
  intros Hp Hs Hrej r. subst r. unfold autoReconnect.
  destruct (loadSession_run env w) as (w0 & EL & Hl0 & Hu0 & Hr0).
  rewrite (bind_normal _ _ _ _ _ EL). cbv zeta.
  unfold provider. rewrite Hp.
  apply truthy_true in Hs. rewrite Hs.
  unfold then_, try_catch, bind, provider_request. rewrite Hr0, Hrej.
  simpl. auto.
Qed.

Lemma rejected_accounts_query_keeps_session_witness :
  let env := sample_env (Some locked_wallet) in
  let w := reload (alice_page two_accounts) in
  localStorage (final (autoReconnect env w)) = localStorage w.
Proof.
  intros env w.
  assert (Hs : Session.account (persisted env w) <> "") by (vm_compute; discriminate).
  destruct (rejected_accounts_query_keeps_session env w locked_wallet
              (Error "wallet is locked") eq_refl Hs eq_refl) as (_ & _ & Hl & _).
  exact Hl.
Defined.
